(** * Tencent COS storage backend (backend/infra/storage/impl/cos/cos.go)

    A shallow embedding of the COS client of coze-studio: endpoint
    resolution ([buildBaseURL]), the time normaliser ([parseCosTime]), the
    object facade ([PutObject], [HeadObject], [GetObjectUrl]) and the
    pagination engine ([ListObjectsPaginated], [ListAllObjects]).

    Go strings are byte strings ([string]); Go [int] and [int64] values are
    [Z], with the wrap-around written out where the client computes with
    them ([int64]); Go maps are [gmap]; a nil pointer or nil map is [None].
    Calls to the COS SDK are the nodes of a program tree ([Prog]); a remote
    service is a handler that answers them while threading its own state
    ([Remote], [run]). *)

From Stdlib Require Import ZArith Ascii String List Lia Bool.
From stdpp Require Import base strings gmap.

Local Open Scope Z_scope.

(** ** Bytes *)

Definition byte_in (lo hi c : ascii) : bool :=
  ((N_of_ascii lo <=? N_of_ascii c) && (N_of_ascii c <=? N_of_ascii hi))%N.

Definition is_lower (c : ascii) : bool := byte_in "a" "z" c.
Definition is_upper (c : ascii) : bool := byte_in "A" "Z" c.
Definition is_digit (c : ascii) : bool := byte_in "0" "9" c.
Definition is_alpha (c : ascii) : bool := is_lower c || is_upper c.

(** [c] is one of the bytes of [set]. *)
Fixpoint byte_among (c : ascii) (set : string) : bool :=
  match set with
  | EmptyString => false
  | String d set' => Ascii.eqb c d || byte_among c set'
  end.

(** The double-quote byte, 0x22. *)
Definition quote : ascii := ascii_of_nat 34.

(** ** Package strings *)

Module strings.

Fixpoint HasPrefix (s prefix : string) {struct prefix} : bool :=
  match prefix, s with
  | EmptyString, _ => true
  | String p prefix', String c s' => Ascii.eqb c p && HasPrefix s' prefix'
  | String _ _, EmptyString => false
  end.

(** [s[n:]] and [s[:n]]. *)
Fixpoint drop (n : nat) (s : string) : string :=
  match n, s with
  | O, _ => s
  | S n', String _ s' => drop n' s'
  | S _, EmptyString => EmptyString
  end.

Fixpoint take (n : nat) (s : string) : string :=
  match n, s with
  | O, _ => EmptyString
  | S n', String c s' => String c (take n' s')
  | S _, EmptyString => EmptyString
  end.

Definition HasSuffix (s suffix : string) : bool :=
  (String.length suffix <=? String.length s)%nat &&
  String.eqb (drop (String.length s - String.length suffix) s) suffix.

(** First position at which [substr] occurs; [None] is Go's [-1]. *)
Fixpoint Index (s substr : string) : option nat :=
  if HasPrefix s substr then Some O
  else match s with
       | EmptyString => None
       | String _ s' => option_map S (Index s' substr)
       end.

(** Last position at which [substr] occurs. *)
Fixpoint LastIndex (s substr : string) : option nat :=
  match s with
  | EmptyString => if HasPrefix s substr then Some O else None
  | String _ s' =>
      match LastIndex s' substr with
      | Some i => Some (S i)
      | None => if HasPrefix s substr then Some O else None
      end
  end.

Definition Contains (s substr : string) : bool :=
  match Index s substr with Some _ => true | None => false end.

(** [strings.Cut]: the text before and after the first [sep]. *)
Definition Cut (s sep : string) : string * string * bool :=
  match Index s sep with
  | Some i => (take i s, drop (i + String.length sep) s, true)
  | None => (s, EmptyString, false)
  end.

(** Number of occurrences of the one-byte string [String c ""]. *)
Fixpoint CountByte (s : string) (c : ascii) : nat :=
  match s with
  | EmptyString => O
  | String d s' => ((if Ascii.eqb d c then 1 else 0) + CountByte s' c)%nat
  end.

Definition lower (c : ascii) : ascii :=
  if is_upper c then ascii_of_N (N_of_ascii c + 32) else c.

Fixpoint ToLower (s : string) : string :=
  match s with
  | EmptyString => EmptyString
  | String c s' => String (lower c) (ToLower s')
  end.

Fixpoint TrimLeft (s cutset : string) : string :=
  match s with
  | EmptyString => EmptyString
  | String c s' => if byte_among c cutset then TrimLeft s' cutset else s
  end.

(** [TrimRight], as a right-to-left pass: a byte is dropped when it belongs
    to [cutset] and everything after it was dropped too. *)
Fixpoint TrimRight (s cutset : string) : string :=
  match s with
  | EmptyString => EmptyString
  | String c s' =>
      match TrimRight s' cutset with
      | EmptyString => if byte_among c cutset then EmptyString else String c EmptyString
      | t => String c t
      end
  end.

(** [strings.Trim] for a cutset of ASCII bytes. *)
Definition Trim (s cutset : string) : string :=
  TrimRight (TrimLeft s cutset) cutset.

End strings.

(** ** Errors *)

(** The cos-go-sdk-v5 error values: an [ErrorResponse] carries the HTTP
    status of the reply, anything else is a transport failure. *)
Inductive cos_error : Type :=
| ErrorResponse (StatusCode : Z) (Code Message : string)
| TransportError (msg : string).

(** Go [error] values met in this package. *)
Inductive error : Type :=
| errorString (msg : string)                 (* errors.New, fmt.Errorf without %w *)
| wrapError (prefix : string) (err : error)  (* fmt.Errorf("prefix: %w", err) *)
| EscapeError (s : string)                   (* url.EscapeError *)
| InvalidHostError (s : string)              (* url.InvalidHostError *)
| url_Error (Op URL : string) (Err : error)  (* *url.Error *)
| ErrObjectNotFound                          (* storage.ErrObjectNotFound *)
| sdkError (e : cos_error).                  (* an error returned by the SDK *)

(** A Go result pair [(v, err)]: either the value or the non-nil error. *)
Inductive result (A : Type) : Type :=
| Ok (v : A)
| Err (e : error).
Arguments Ok {A} v.
Arguments Err {A} e.

(** [cosv5.IsNotFoundError]: an [ErrorResponse] whose status is 404. *)
Definition IsNotFoundError (e : error) : bool :=
  match e with
  | sdkError (ErrorResponse status _ _) => status =? 404
  | _ => false
  end.

(** ** Package net/url

    [url.Parse] as the Go standard library implements it, for the fields this
    package reads or overwrites ([Scheme], [Host], [Path], [RawQuery],
    [Fragment]) together with [Opaque] and [User]; the derived encodings
    ([RawPath], [RawFragment]) and the flags [ForceQuery] and [OmitHost] are
    never looked at by the client and are left out. *)

Module url.

Record Userinfo : Type := mkUserinfo {
  username : string;
  password : string;
  passwordSet : bool
}.

Record URL : Type := mkURL {
  Scheme : string;
  Opaque : string;
  User : option Userinfo;
  Host : string;
  Path : string;
  RawQuery : string;
  Fragment : string
}.

Inductive encoding : Type :=
| encodePath | encodePathSegment | encodeHost | encodeZone
| encodeUserPassword | encodeQueryComponent | encodeFragment.

Definition is_host_mode (mode : encoding) : bool :=
  match mode with encodeHost | encodeZone => true | _ => false end.

Definition ishex (c : ascii) : bool :=
  is_digit c || byte_in "a" "f" c || byte_in "A" "F" c.

Definition unhex (c : ascii) : N :=
  if is_digit c then (N_of_ascii c - 48)%N
  else if byte_in "a" "f" c then (N_of_ascii c - 97 + 10)%N
  else if byte_in "A" "F" c then (N_of_ascii c - 65 + 10)%N
  else 0%N.

Definition shouldEscape (c : ascii) (mode : encoding) : bool :=
  if is_alpha c || is_digit c then false
  else if is_host_mode mode && byte_among c ("!$&'()*+,;=:[]<>" +:+ String quote "") then false
  else if byte_among c "-_.~" then false
  else if byte_among c "$&+,/:;=?@" then
    match mode with
    | encodePath => Ascii.eqb c "?"
    | encodePathSegment => byte_among c "/;,?"
    | encodeUserPassword => byte_among c "@/?:"
    | encodeQueryComponent => true
    | encodeFragment => false
    | _ => true
    end
  else if match mode with encodeFragment => byte_among c "!()*" | _ => false end then false
  else true.

(** [unescape]: the validation pass and the decoding pass in one
    left-to-right traversal; the first malformed position decides the
    error, as in the library. *)
Fixpoint unescape (s : string) (mode : encoding) : result string :=
  match s with
  | EmptyString => Ok EmptyString
  | String c rest =>
      if Ascii.eqb c "%" then
        match rest with
        | String a (String b rest') =>
            if negb (ishex a && ishex b) then Err (EscapeError (strings.take 3 s))
            else if match mode with
                    | encodeHost =>
                        (unhex a <? 8)%N && negb (String.eqb (strings.take 3 s) "%25")
                    | encodeZone =>
                        let v := ascii_of_N (unhex a * 16 + unhex b) in
                        negb (String.eqb (strings.take 3 s) "%25")
                        && negb (Ascii.eqb v " ") && shouldEscape v encodeHost
                    | _ => false
                    end
                 then Err (EscapeError (strings.take 3 s))
            else match unescape rest' mode with
                 | Ok t => Ok (String (ascii_of_N (unhex a * 16 + unhex b)) t)
                 | Err e => Err e
                 end
        | _ => Err (EscapeError (strings.take 3 s))
        end
      else if is_host_mode mode && (N_of_ascii c <? 128)%N && shouldEscape c encodeHost
      then Err (InvalidHostError (String c ""))
      else match unescape rest mode with
           | Ok t =>
               Ok (String (if Ascii.eqb c "+" then
                             match mode with encodeQueryComponent => " "%char | _ => c end
                           else c) t)
           | Err e => Err e
           end
  end.

Fixpoint stringContainsCTLByte (s : string) : bool :=
  match s with
  | EmptyString => false
  | String c s' =>
      (N_of_ascii c <? 32)%N || (N_of_ascii c =? 127)%N || stringContainsCTLByte s'
  end.

(** [getScheme rawURL]: the scheme before the first [:] and the rest, when
    the text up to that colon is a well-formed scheme.  [i] is the index of
    the byte at the head of [s], [acc] the bytes read so far. *)
Fixpoint getScheme_from (rawURL : string) (i : nat) (acc s : string)
  : result (string * string) :=
  match s with
  | EmptyString => Ok (EmptyString, rawURL)
  | String c s' =>
      if is_alpha c then getScheme_from rawURL (S i) (acc +:+ String c "") s'
      else if is_digit c || byte_among c "+-." then
        match i with
        | O => Ok (EmptyString, rawURL)
        | S _ => getScheme_from rawURL (S i) (acc +:+ String c "") s'
        end
      else if Ascii.eqb c ":" then
        match i with
        | O => Err (errorString "missing protocol scheme")
        | S _ => Ok (acc, s')
        end
      else Ok (EmptyString, rawURL)
  end.

Definition getScheme (rawURL : string) : result (string * string) :=
  getScheme_from rawURL O EmptyString rawURL.

Fixpoint all_digits (s : string) : bool :=
  match s with
  | EmptyString => true
  | String c s' => is_digit c && all_digits s'
  end.

Definition validOptionalPort (port : string) : bool :=
  match port with
  | EmptyString => true
  | String c digits => Ascii.eqb c ":" && all_digits digits
  end.

(** [validUserinfo] ranges over runes; a byte above 0x7f starts a rune that
    is none of the accepted ones. *)
Fixpoint validUserinfo (s : string) : bool :=
  match s with
  | EmptyString => true
  | String c s' =>
      (is_alpha c || is_digit c || byte_among c "-._:~!$&'()*+,;=%@")
      && validUserinfo s'
  end.

Definition parseHost (host : string) : result string :=
  let plain := unescape host encodeHost in
  if strings.HasPrefix host "[" then
    match strings.LastIndex host "]" with
    | None => Err (errorString "missing ']' in host")
    | Some i =>
        let colonPort := strings.drop (i + 1) host in
        if negb (validOptionalPort colonPort) then
          Err (errorString ("invalid port after host: " +:+ colonPort))
        else
          match strings.Index (strings.take i host) "%25" with
          | Some zone =>
              match unescape (strings.take zone host) encodeHost with
              | Err e => Err e
              | Ok host1 =>
                  match unescape (strings.drop zone (strings.take i host)) encodeZone with
                  | Err e => Err e
                  | Ok host2 =>
                      match unescape (strings.drop i host) encodeHost with
                      | Err e => Err e
                      | Ok host3 => Ok (host1 +:+ host2 +:+ host3)
                      end
                  end
              end
          | None => plain
          end
    end
  else
    match strings.LastIndex host ":" with
    | Some i =>
        let colonPort := strings.drop i host in
        if negb (validOptionalPort colonPort) then
          Err (errorString ("invalid port after host: " +:+ colonPort))
        else plain
    | None => plain
    end.

Definition parseAuthority (authority : string) : result (option Userinfo * string) :=
  let at_ := strings.LastIndex authority "@" in
  match parseHost (match at_ with
                   | None => authority
                   | Some i => strings.drop (i + 1) authority
                   end) with
  | Err e => Err e
  | Ok host =>
      match at_ with
      | None => Ok (None, host)
      | Some i =>
          let userinfo := strings.take i authority in
          if negb (validUserinfo userinfo) then
            Err (errorString "net/url: invalid userinfo")
          else if negb (strings.Contains userinfo ":") then
            match unescape userinfo encodeUserPassword with
            | Err e => Err e
            | Ok u => Ok (Some (mkUserinfo u "" false), host)
            end
          else
            let '(username, password, _) := strings.Cut userinfo ":" in
            match unescape username encodeUserPassword with
            | Err e => Err e
            | Ok u =>
                match unescape password encodeUserPassword with
                | Err e => Err e
                | Ok p => Ok (Some (mkUserinfo u p true), host)
                end
            end
      end
  end.

(** [u.setPath(p)], without the [RawPath] bookkeeping. *)
Definition setPath (u : URL) (p : string) : result URL :=
  match unescape p encodePath with
  | Err e => Err e
  | Ok path =>
      Ok {| Scheme := Scheme u; Opaque := Opaque u; User := User u; Host := Host u;
            Path := path; RawQuery := RawQuery u; Fragment := Fragment u |}
  end.

(** [u.setFragment(f)], without the [RawFragment] bookkeeping. *)
Definition setFragment (u : URL) (f : string) : result URL :=
  match unescape f encodeFragment with
  | Err e => Err e
  | Ok frag =>
      Ok {| Scheme := Scheme u; Opaque := Opaque u; User := User u; Host := Host u;
            Path := Path u; RawQuery := RawQuery u; Fragment := frag |}
  end.

(** [parse(rawURL, viaRequest)]. *)
Definition parse (rawURL : string) (viaRequest : bool) : result URL :=
  if stringContainsCTLByte rawURL then
    Err (errorString "net/url: invalid control character in URL")
  else if String.eqb rawURL "" && viaRequest then Err (errorString "empty url")
  else if String.eqb rawURL "*" then
    Ok {| Scheme := ""; Opaque := ""; User := None; Host := ""; Path := "*";
          RawQuery := ""; Fragment := "" |}
  else
    match getScheme rawURL with
    | Err e => Err e
    | Ok (scheme0, rest0) =>
        let scheme := strings.ToLower scheme0 in
        let '(rest, rawQuery) :=
          if strings.HasSuffix rest0 "?" && (strings.CountByte rest0 "?" =? 1)%nat
          then (strings.take (String.length rest0 - 1) rest0, EmptyString)
          else let '(before, after, _) := strings.Cut rest0 "?" in (before, after) in
        let u := {| Scheme := scheme; Opaque := ""; User := None; Host := "";
                    Path := ""; RawQuery := rawQuery; Fragment := "" |} in
        if negb (strings.HasPrefix rest "/") && negb (String.eqb scheme "") then
          Ok {| Scheme := scheme; Opaque := rest; User := None; Host := "";
                Path := ""; RawQuery := rawQuery; Fragment := "" |}
        else if negb (strings.HasPrefix rest "/") && viaRequest then
          Err (errorString "invalid URI for request")
        else if negb (strings.HasPrefix rest "/")
                && strings.Contains (fst (fst (strings.Cut rest "/"))) ":" then
          Err (errorString "first path segment in URL cannot contain colon")
        else if (negb (String.eqb scheme "")
                 || negb viaRequest && negb (strings.HasPrefix rest "///"))
                && strings.HasPrefix rest "//" then
          let authority0 := strings.drop 2 rest in
          let '(authority, rest') :=
            match strings.Index authority0 "/" with
            | Some i => (strings.take i authority0, strings.drop i authority0)
            | None => (authority0, EmptyString)
            end in
          match parseAuthority authority with
          | Err e => Err e
          | Ok (user, host) =>
              setPath {| Scheme := scheme; Opaque := ""; User := user; Host := host;
                         Path := ""; RawQuery := rawQuery; Fragment := "" |} rest'
          end
        else setPath u rest
    end.

(** [url.Parse]. *)
Definition Parse (rawURL : string) : result URL :=
  let '(u, frag, _) := strings.Cut rawURL "#" in
  match parse u false with
  | Err e => Err (url_Error "parse" u e)
  | Ok url =>
      if String.eqb frag "" then Ok url
      else match setFragment url frag with
           | Err e => Err (url_Error "parse" rawURL e)
           | Ok url' => Ok url'
           end
  end.

End url.

(** ** Endpoint resolver *)

(** [cosv5.BaseURL]. *)
Record BaseURL : Type := mkBaseURL {
  BucketURL : url.URL;
  ServiceURL : url.URL
}.

Definition buildBaseURL (bucketName endpoint region : string) : result BaseURL :=
  if String.eqb bucketName "" then Err (errorString "cos bucket name is empty")
  else if String.eqb endpoint "" && String.eqb region "" then
    Err (errorString "cos endpoint is empty and region is missing")
  else
    let endpoint :=
      if String.eqb endpoint "" then "https://cos." +:+ region +:+ ".myqcloud.com"
      else endpoint in
    let endpoint :=
      if negb (strings.HasPrefix endpoint "http://")
         && negb (strings.HasPrefix endpoint "https://")
      then "https://" +:+ endpoint else endpoint in
    match url.Parse endpoint with
    | Err err => Err (wrapError "parse cos endpoint failed: " err)
    | Ok parsed =>
        let serviceURL :=
          {| url.Scheme := url.Scheme parsed; url.Opaque := url.Opaque parsed;
             url.User := url.User parsed; url.Host := url.Host parsed;
             url.Path := ""; url.RawQuery := ""; url.Fragment := "" |} in
        let bucketHost := url.Host serviceURL in
        let bucketHost :=
          if negb (strings.HasPrefix bucketHost (bucketName +:+ "."))
          then bucketName +:+ "." +:+ bucketHost else bucketHost in
        let bucketURL :=
          {| url.Scheme := url.Scheme serviceURL; url.Opaque := url.Opaque serviceURL;
             url.User := url.User serviceURL; url.Host := bucketHost;
             url.Path := url.Path serviceURL; url.RawQuery := url.RawQuery serviceURL;
             url.Fragment := url.Fragment serviceURL |} in
        Ok {| BucketURL := bucketURL; ServiceURL := serviceURL |}
    end.

(** ** Package strconv *)

Module strconv.

(** The two causes a [*NumError] can carry. *)
Inductive NumError : Type := ErrSyntax | ErrRange.

(** Value of a byte as a digit: ['0'..'9'], then the letters from 10 on. *)
Definition digit_val (c : ascii) : option Z :=
  if is_digit c then Some (Z.of_N (N_of_ascii c) - 48)
  else if is_alpha c then Some (Z.of_N (N_of_ascii (strings.lower c)) - 97 + 10)
  else None.

Definition maxUint64 : Z := 2 ^ 64 - 1.

(** The digit loop of [ParseUint] for an explicit base; [n] is the uint64
    accumulator.  A byte that is no digit of the base ends the parse with 0
    and a syntax error; an accumulator about to leave the range ends it at
    once with [maxVal] and a range error, whatever follows. *)
Fixpoint ParseUint_loop (s : string) (base maxVal n : Z) : Z * option NumError :=
  match s with
  | EmptyString => (n, None)
  | String c s' =>
      match digit_val c with
      | None => (0, Some ErrSyntax)
      | Some d =>
          if d >=? base then (0, Some ErrSyntax)
          else if n >=? maxUint64 / base + 1 then (maxVal, Some ErrRange)
          else
            let n := n * base in
            let n1 := (n + d) mod 2 ^ 64 in
            if (n1 <? n) || (n1 >? maxVal) then (maxVal, Some ErrRange)
            else ParseUint_loop s' base maxVal n1
      end
  end.

(** [strconv.ParseUint(s, base, bitSize)] for an explicit base
    [2 <= base <= 36] and [1 <= bitSize <= 64]; the client asks for base 10
    and 64 bits. *)
Definition ParseUint (s : string) (base bitSize : Z) : Z * option NumError :=
  if String.eqb s "" then (0, Some ErrSyntax)
  else ParseUint_loop s base (2 ^ bitSize - 1) 0.

(** [strconv.ParseInt(s, base, bitSize)], for the same bases and sizes. *)
Definition ParseInt (s : string) (base bitSize : Z) : Z * option NumError :=
  match s with
  | EmptyString => (0, Some ErrSyntax)
  | String c0 s' =>
      let neg := Ascii.eqb c0 "-" in
      let digits := if Ascii.eqb c0 "+" || Ascii.eqb c0 "-" then s' else s in
      let '(un, err) := ParseUint digits base bitSize in
      let cutoff := 2 ^ (bitSize - 1) in
      if match err with Some ErrSyntax => true | _ => false end then (0, err)
      else if negb neg && (un >=? cutoff) then (cutoff - 1, Some ErrRange)
      else if neg && (un >? cutoff) then (- cutoff, Some ErrRange)
      else ((if neg then - un else un), None)
  end.

End strconv.

(** ** Package time *)

Module time.

(** A [time.Time], reduced to the instant it denotes: seconds since
    January 1 of year 1, 00:00:00 UTC, and nanoseconds within the second. *)
Record Time : Type := mkTime { sec : Z; nsec : Z }.

(** [time.Time{}], the zero instant. *)
Definition zero : Time := {| sec := 0; nsec := 0 |}.

Definition IsZero (t : Time) : bool := (sec t =? 0) && (nsec t =? 0).

Definition RFC3339 : string := "2006-01-02T15:04:05Z07:00".
Definition RFC3339Nano : string := "2006-01-02T15:04:05.999999999Z07:00".
Definition RFC850 : string := "Monday, 02-Jan-06 15:04:05 MST".
Definition ANSIC : string := "Mon Jan _2 15:04:05 2006".

(** [time.Second], in nanoseconds. *)
Definition Second : Z := 1000000000.

End time.

(** Two's complement wrap-around of int64 arithmetic. *)
Definition int64 (z : Z) : Z := (z + 2 ^ 63) mod 2 ^ 64 - 2 ^ 63.

(** ** Package net/http: headers *)

Module http.

Abbreviation Header := (gmap string (list string)).

Definition TimeFormat : string := "Mon, 02 Jan 2006 15:04:05 GMT".
Definition MethodGet : string := "GET".

(** Bytes allowed in a header field name (RFC 7230 token). *)
Definition validHeaderFieldByte (c : ascii) : bool :=
  is_alpha c || is_digit c || byte_among c "!#$%&'*+-.^_`|~".

Fixpoint all_valid (s : string) : bool :=
  match s with
  | EmptyString => true
  | String c s' => validHeaderFieldByte c && all_valid s'
  end.

Definition upper_byte (c : ascii) : ascii :=
  if is_lower c then ascii_of_N (N_of_ascii c - 32) else c.

Fixpoint canonical (upper : bool) (s : string) : string :=
  match s with
  | EmptyString => EmptyString
  | String c s' =>
      let c' := if upper then upper_byte c else strings.lower c in
      String c' (canonical (Ascii.eqb c' "-") s')
  end.

(** [textproto.CanonicalMIMEHeaderKey]: a name made of token bytes gets an
    upper-case letter at its start and after each hyphen and lower-case
    letters elsewhere; any other name is returned unchanged. *)
Definition CanonicalMIMEHeaderKey (s : string) : string :=
  if all_valid s then canonical true s else s.

(** [h.Get(key)]: the first value stored under the canonical key, or [""]. *)
Definition Get (h : Header) (key : string) : string :=
  match h !! CanonicalMIMEHeaderKey key with
  | Some (v :: _) => v
  | _ => ""
  end.

(** [h.Set(key, value)]. *)
Definition Set_ (h : Header) (key value : string) : Header :=
  <[CanonicalMIMEHeaderKey key := [value]]> h.

End http.

(** ** Package storage: the provider-independent data model *)

(** Modelled from the spec: the package backend/infra/storage, imported by
    cos.go, is not part of the files embedded here.  It declares [FileInfo],
    [PutOption], [GetOption], the paginated input and output, the option
    constructors and the [ErrObjectNotFound] sentinel; the records below carry
    the fields the spec lists and cos.go reads and writes, at the Go types
    cos.go uses them at. *)
Module storage.

Module FileInfo.
Record t : Type := mk {
  Key : string;
  LastModified : time.Time;
  ETag : string;
  Size : Z;
  URL : string;
  Tagging : option (gmap string string)
}.
Definition with_Tagging (f : t) (tg : option (gmap string string)) : t :=
  {| Key := Key f; LastModified := LastModified f; ETag := ETag f;
     Size := Size f; URL := URL f; Tagging := tg |}.
Definition with_URL (f : t) (u : string) : t :=
  {| Key := Key f; LastModified := LastModified f; ETag := ETag f;
     Size := Size f; URL := u; Tagging := Tagging f |}.
End FileInfo.

Module PutOption.
Record t : Type := mk {
  ContentType : option string;
  ContentEncoding : option string;
  ContentDisposition : option string;
  ContentLanguage : option string;
  Expires : option time.Time;
  ObjectSize : Z;
  Tagging : option (gmap string string)
}.
(** [storage.PutOption{}]. *)
Definition zero : t :=
  {| ContentType := None; ContentEncoding := None; ContentDisposition := None;
     ContentLanguage := None; Expires := None; ObjectSize := 0; Tagging := None |}.
End PutOption.

Module GetOption.
Record t : Type := mk {
  WithTagging : bool;
  WithURL : bool;
  Expire : Z
}.
(** [storage.GetOption{}]. *)
Definition zero : t := {| WithTagging := false; WithURL := false; Expire := 0 |}.
End GetOption.

(** Functional options: functions that update the option struct they are
    handed. *)
Definition PutOptFn : Type := PutOption.t -> PutOption.t.
Definition GetOptFn : Type := GetOption.t -> GetOption.t.

(** Modelled from the spec: the option constructors of backend/infra/storage
    set the one field of the option struct they are named after. *)
Definition WithObjectSize (size : Z) : PutOptFn := fun o =>
  {| PutOption.ContentType := PutOption.ContentType o;
     PutOption.ContentEncoding := PutOption.ContentEncoding o;
     PutOption.ContentDisposition := PutOption.ContentDisposition o;
     PutOption.ContentLanguage := PutOption.ContentLanguage o;
     PutOption.Expires := PutOption.Expires o;
     PutOption.ObjectSize := size;
     PutOption.Tagging := PutOption.Tagging o |}.

Definition WithTagging (b : bool) : GetOptFn := fun o =>
  {| GetOption.WithTagging := b; GetOption.WithURL := GetOption.WithURL o;
     GetOption.Expire := GetOption.Expire o |}.

Definition WithURL (b : bool) : GetOptFn := fun o =>
  {| GetOption.WithTagging := GetOption.WithTagging o; GetOption.WithURL := b;
     GetOption.Expire := GetOption.Expire o |}.

Definition WithExpire (expire : Z) : GetOptFn := fun o =>
  {| GetOption.WithTagging := GetOption.WithTagging o;
     GetOption.WithURL := GetOption.WithURL o; GetOption.Expire := expire |}.

Module ListObjectsPaginatedInput.
Record t : Type := mk {
  Prefix : string;
  PageSize : Z;
  Cursor : string
}.
End ListObjectsPaginatedInput.

Module ListObjectsPaginatedOutput.
Record t : Type := mk {
  Files : list FileInfo.t;
  Cursor : string;
  IsTruncated : bool
}.
End ListObjectsPaginatedOutput.

End storage.

(** [for _, opt := range opts { opt(&option) }]. *)
Definition apply_opts {O : Type} (opts : list (O -> O)) (option : O) : O :=
  fold_left (fun o opt => opt o) opts option.

(** ** Package cosv5: the SDK types the client exchanges with the service *)

Module cosv5.

Module Object.
Record t : Type := mk {
  Key : string;
  ETag : string;
  Size : Z;
  LastModified : string
}.
End Object.

Module BucketGetOptions.
Record t : Type := mk {
  Prefix : string;
  Marker : string;
  MaxKeys : Z
}.
End BucketGetOptions.

Module BucketGetResult.
Record t : Type := mk {
  Contents : list Object.t;
  NextMarker : string;
  IsTruncated : bool
}.
End BucketGetResult.

Module ObjectTaggingTag.
Record t : Type := mk { Key : string; Value : string }.
End ObjectTaggingTag.

Module ObjectGetTaggingResult.
Record t : Type := mk { TagSet : list ObjectTaggingTag.t }.
End ObjectGetTaggingResult.

(** [ObjectPutOptions], flattened with its [ObjectPutHeaderOptions]; a field
    left at its zero value is not sent. *)
Module ObjectPutOptions.
Record t : Type := mk {
  ContentType : string;
  ContentEncoding : string;
  ContentDisposition : string;
  ContentLanguage : string;
  Expires : string;
  ContentLength : Z;
  XOptionHeader : option http.Header
}.
Definition zero : t :=
  {| ContentType := ""; ContentEncoding := ""; ContentDisposition := "";
     ContentLanguage := ""; Expires := ""; ContentLength := 0;
     XOptionHeader := None |}.
End ObjectPutOptions.

(** The outcome of an SDK call: its value, or the error the SDK built. *)
Inductive reply (A : Type) : Type :=
| Done (v : A)
| Failed (e : cos_error).
Arguments Done {A} v.
Arguments Failed {A} e.

End cosv5.

(** ** Programs over the remote service

    A client method is a tree whose inner nodes are the SDK calls it makes,
    each with the continuation that receives the reply, and whose leaves are
    its return values.  Logging ([logs.CtxDebugf], [logs.CtxErrorf]) changes
    no value a method returns and is not part of the tree; neither is the
    [context.Context] handed through every call. *)

Inductive Prog (A : Type) : Type :=
| Ret (a : A)
| Bucket_Get (opt : cosv5.BucketGetOptions.t)
    (k : cosv5.reply cosv5.BucketGetResult.t -> Prog A)
| Object_Put (key : string) (body : string) (opt : cosv5.ObjectPutOptions.t)
    (k : cosv5.reply unit -> Prog A)
| Object_Head (key : string) (k : cosv5.reply http.Header -> Prog A)
| Object_GetTagging (key : string)
    (k : cosv5.reply cosv5.ObjectGetTaggingResult.t -> Prog A)
| Object_GetPresignedURL (method key ak sk : string) (expire : Z)
    (k : cosv5.reply string -> Prog A).
Arguments Ret {A} a.
Arguments Bucket_Get {A} opt k.
Arguments Object_Put {A} key body opt k.
Arguments Object_Head {A} key k.
Arguments Object_GetTagging {A} key k.
Arguments Object_GetPresignedURL {A} method key ak sk expire k.

Fixpoint bind {A B : Type} (p : Prog A) (f : A -> Prog B) : Prog B :=
  match p with
  | Ret a => f a
  | Bucket_Get opt k => Bucket_Get opt (fun r => bind (k r) f)
  | Object_Put key body opt k => Object_Put key body opt (fun r => bind (k r) f)
  | Object_Head key k => Object_Head key (fun r => bind (k r) f)
  | Object_GetTagging key k => Object_GetTagging key (fun r => bind (k r) f)
  | Object_GetPresignedURL m key ak sk e k =>
      Object_GetPresignedURL m key ak sk e (fun r => bind (k r) f)
  end.

Notation "x <- p ;; q" := (bind p (fun x => q))
  (at level 100, p at next level, right associativity).

(** A remote service: how it answers each call from a state [W] of its own. *)
Record Remote (W : Type) : Type := mkRemote {
  bucket_get : cosv5.BucketGetOptions.t -> W -> cosv5.reply cosv5.BucketGetResult.t * W;
  object_put : string -> string -> cosv5.ObjectPutOptions.t -> W -> cosv5.reply unit * W;
  object_head : string -> W -> cosv5.reply http.Header * W;
  object_get_tagging : string -> W -> cosv5.reply cosv5.ObjectGetTaggingResult.t * W;
  presigned_url : string -> string -> string -> string -> Z -> W -> cosv5.reply string * W
}.
Arguments bucket_get {W} r opt w.
Arguments object_put {W} r key body opt w.
Arguments object_head {W} r key w.
Arguments object_get_tagging {W} r key w.
Arguments presigned_url {W} r method key ak sk expire w.

(** What a run exchanges with the remote: each call with its reply. *)
Inductive Event : Type :=
| EvBucketGet (opt : cosv5.BucketGetOptions.t) (reply : cosv5.reply cosv5.BucketGetResult.t)
| EvObjectPut (key body : string) (opt : cosv5.ObjectPutOptions.t) (reply : cosv5.reply unit)
| EvObjectHead (key : string) (reply : cosv5.reply http.Header)
| EvObjectGetTagging (key : string) (reply : cosv5.reply cosv5.ObjectGetTaggingResult.t)
| EvGetPresignedURL (method key ak sk : string) (expire : Z) (reply : cosv5.reply string).

(** [run r p w]: the value [p] returns against the remote [r] started in state
    [w], the state the remote is left in, and the exchanges in order. *)
Fixpoint run {W A : Type} (r : Remote W) (p : Prog A) (w : W) : A * W * list Event :=
  match p with
  | Ret a => (a, w, [])
  | Bucket_Get opt k =>
      let '(x, w1) := bucket_get r opt w in
      let '(a, w2, tr) := run r (k x) w1 in (a, w2, EvBucketGet opt x :: tr)
  | Object_Put key body opt k =>
      let '(x, w1) := object_put r key body opt w in
      let '(a, w2, tr) := run r (k x) w1 in (a, w2, EvObjectPut key body opt x :: tr)
  | Object_Head key k =>
      let '(x, w1) := object_head r key w in
      let '(a, w2, tr) := run r (k x) w1 in (a, w2, EvObjectHead key x :: tr)
  | Object_GetTagging key k =>
      let '(x, w1) := object_get_tagging r key w in
      let '(a, w2, tr) := run r (k x) w1 in (a, w2, EvObjectGetTagging key x :: tr)
  | Object_GetPresignedURL m key ak sk e k =>
      let '(x, w1) := presigned_url r m key ak sk e w in
      let '(a, w2, tr) := run r (k x) w1 in
      (a, w2, EvGetPresignedURL m key ak sk e x :: tr)
  end.

Definition value {W A : Type} (x : A * W * list Event) : A := fst (fst x).
Definition trace {W A : Type} (x : A * W * list Event) : list Event := snd x.

(** ** Bounded task group *)

(** Modelled from the spec: the package backend/pkg/taskgroup, imported by
    cos.go, is not part of the files embedded here.  Per the spec a group runs
    the submitted tasks with a bound on the calls in flight, [Wait] joins
    them, and the first failure cancels the remaining work and is the error of
    the group.  The tasks of this client share nothing but the remote, so the
    model runs them one after the other in submission order; a task hands
    back the value it would have written into its own slot, and the values of
    a failed group are dropped. *)
Fixpoint taskgroup_Wait {A : Type} (tasks : list (Prog (result A)))
  : Prog (result (list A)) :=
  match tasks with
  | [] => Ret (Ok [])
  | task :: rest =>
      r <- task ;;
      match r with
      | Err err => Ret (Err err)
      | Ok a =>
          rs <- taskgroup_Wait rest ;;
          match rs with
          | Err err => Ret (Err err)
          | Ok l => Ret (Ok (a :: l))
          end
      end
  end.

(** ** The client *)

Record cosClient : Type := mkClient {
  bucketName : string;
  secretID : string;
  secretKey : string
}.

Definition cosTagsToMap (tags : list cosv5.ObjectTaggingTag.t) : option (gmap string string) :=
  if (length tags =? 0)%nat then None
  else Some (fold_left
               (fun m tag => <[cosv5.ObjectTaggingTag.Key tag := cosv5.ObjectTaggingTag.Value tag]> m)
               tags ∅).

Section Client.

(** What the client only calls in the Go standard library: [time.Parse]
    ([None] when it reports an error, in which case the time it returns is
    [time.Time{}]) and [t.UTC().Format(layout)]. *)
Variable time_Parse : string -> string -> option time.Time.
Variable time_Format : time.Time -> string -> string.

(** Modelled from the spec: goutil.MapToQuery (backend/pkg/goutil) is not part
    of the files embedded here; it is the [k1=v1&k2=v2] query encoding of a
    tag map, taken as a parameter. *)
Variable MapToQuery : gmap string string -> string.

(** [http.ParseTime]: the three date formats of HTTP/1.1, in order; the
    time and error of the last attempt when none applies. *)
Definition http_timeFormats : list string :=
  [http.TimeFormat; time.RFC850; time.ANSIC].

Fixpoint first_layout (layouts : list string) (value : string) : option time.Time :=
  match layouts with
  | [] => None
  | layout :: rest =>
      match time_Parse layout value with
      | Some t => Some t
      | None => first_layout rest value
      end
  end.

Definition http_ParseTime (text : string) : time.Time * bool :=
  match first_layout http_timeFormats text with
  | Some t => (t, true)
  | None => (time.zero, false)
  end.

Definition parseCosTime (value : string) : time.Time :=
  if String.eqb value "" then time.zero
  else
    let layouts := [time.RFC3339; time.RFC3339Nano; "2006-01-02T15:04:05.000Z"] in
    match first_layout layouts value with
    | Some t => t
    | None =>
        match http_ParseTime value with
        | (t, true) => t
        | (_, false) => time.zero
        end
    end.

(** *** Object facade *)

Definition PutObjectWithReader (c : cosClient) (objectKey : string) (content : string)
    (opts : list storage.PutOptFn) : Prog (option error) :=
  let opt := apply_opts opts storage.PutOption.zero in
  let putOption := cosv5.ObjectPutOptions.zero in
  let putOption :=
    {| cosv5.ObjectPutOptions.ContentType :=
         match storage.PutOption.ContentType opt with
         | Some v => v
         | None => cosv5.ObjectPutOptions.ContentType putOption
         end;
       cosv5.ObjectPutOptions.ContentEncoding :=
         match storage.PutOption.ContentEncoding opt with
         | Some v => v
         | None => cosv5.ObjectPutOptions.ContentEncoding putOption
         end;
       cosv5.ObjectPutOptions.ContentDisposition :=
         match storage.PutOption.ContentDisposition opt with
         | Some v => v
         | None => cosv5.ObjectPutOptions.ContentDisposition putOption
         end;
       cosv5.ObjectPutOptions.ContentLanguage :=
         match storage.PutOption.ContentLanguage opt with
         | Some v => v
         | None => cosv5.ObjectPutOptions.ContentLanguage putOption
         end;
       cosv5.ObjectPutOptions.Expires :=
         match storage.PutOption.Expires opt with
         | Some t => time_Format t http.TimeFormat
         | None => cosv5.ObjectPutOptions.Expires putOption
         end;
       cosv5.ObjectPutOptions.ContentLength :=
         if storage.PutOption.ObjectSize opt >? 0
         then storage.PutOption.ObjectSize opt
         else cosv5.ObjectPutOptions.ContentLength putOption;
       cosv5.ObjectPutOptions.XOptionHeader :=
         match storage.PutOption.Tagging opt with
         | Some tagging =>
             if (0 <? size tagging)%nat then
               Some (http.Set_
                       (match cosv5.ObjectPutOptions.XOptionHeader putOption with
                        | Some h => h
                        | None => ∅
                        end)
                       "x-cos-tagging" (MapToQuery tagging))
             else cosv5.ObjectPutOptions.XOptionHeader putOption
         | None => cosv5.ObjectPutOptions.XOptionHeader putOption
         end |} in
  Object_Put objectKey content putOption (fun r =>
    match r with
    | cosv5.Failed err => Ret (Some (wrapError "put object failed: " (sdkError err)))
    | cosv5.Done _ => Ret None
    end).

Definition PutObject (c : cosClient) (objectKey : string) (content : string)
    (opts : list storage.PutOptFn) : Prog (option error) :=
  let opts := opts ++ [storage.WithObjectSize (Z.of_nat (String.length content))] in
  PutObjectWithReader c objectKey content opts.

Definition GetObjectUrl (c : cosClient) (objectKey : string)
    (opts : list storage.GetOptFn) : Prog (result string) :=
  let opt := apply_opts opts storage.GetOption.zero in
  let expire := 7 * 24 * 60 * 60 in
  let expire := if storage.GetOption.Expire opt >? 0
                then storage.GetOption.Expire opt else expire in
  Object_GetPresignedURL http.MethodGet objectKey (secretID c) (secretKey c)
    (int64 (expire * time.Second)) (fun r =>
      match r with
      | cosv5.Failed err => Ret (Err (sdkError err))
      | cosv5.Done u => Ret (Ok u)
      end).

(** Modelled from the spec: fileutil.AssembleFileUrl, called by cos.go, is
    not part of the files embedded here.  Per the spec, URL enrichment derives
    a presigned URL for every item of the page, through the presign operation
    of the client and with the expiry of the options, and fails fast on the
    first error.  [urlTask] is the work for one file. *)
Definition urlTask (c : cosClient) (expire : Z) (f : storage.FileInfo.t)
  : Prog (result storage.FileInfo.t) :=
  r <- GetObjectUrl c (storage.FileInfo.Key f) [storage.WithExpire expire] ;;
  match r with
  | Err err => Ret (Err err)
  | Ok u => Ret (Ok (storage.FileInfo.with_URL f u))
  end.

(** Modelled from the spec: see [urlTask]. *)
Definition AssembleFileUrl (expire : Z) (files : list storage.FileInfo.t)
    (c : cosClient) : Prog (result (list storage.FileInfo.t)) :=
  taskgroup_Wait (map (urlTask c expire) files).

(** *** Pagination engine *)

(** The pseudo-directory test of the listing loop. *)
Definition is_dir_marker (obj : cosv5.Object.t) : bool :=
  (cosv5.Object.Size obj =? 0) && strings.HasSuffix (cosv5.Object.Key obj) "/".

Definition toFileInfo (obj : cosv5.Object.t) : storage.FileInfo.t :=
  {| storage.FileInfo.Key := cosv5.Object.Key obj;
     storage.FileInfo.LastModified := parseCosTime (cosv5.Object.LastModified obj);
     storage.FileInfo.ETag := strings.Trim (cosv5.Object.ETag obj) (String quote "");
     storage.FileInfo.Size := cosv5.Object.Size obj;
     storage.FileInfo.URL := "";
     storage.FileInfo.Tagging := None |}.

(** [for _, obj := range result.Contents { ... files = append(files, ...) }]. *)
Fixpoint collectFiles (contents : list cosv5.Object.t) (files : list storage.FileInfo.t)
  : list storage.FileInfo.t :=
  match contents with
  | [] => files
  | obj :: rest =>
      if is_dir_marker obj then collectFiles rest files
      else collectFiles rest (files ++ [toFileInfo obj])
  end.

(** The task submitted for one file of the page. *)
Definition taggingTask (f : storage.FileInfo.t) : Prog (result storage.FileInfo.t) :=
  Object_GetTagging (storage.FileInfo.Key f) (fun r =>
    match r with
    | cosv5.Failed err => Ret (Err (sdkError err))
    | cosv5.Done tagging =>
        Ret (Ok (storage.FileInfo.with_Tagging f
                   (cosTagsToMap (cosv5.ObjectGetTaggingResult.TagSet tagging))))
    end).

Definition ListObjectsPaginated (c : cosClient)
    (input : option storage.ListObjectsPaginatedInput.t)
    (opts : list storage.GetOptFn) : Prog (result storage.ListObjectsPaginatedOutput.t) :=
  match input with
  | None => Ret (Err (errorString "input cannot be nil"))
  | Some input =>
      if storage.ListObjectsPaginatedInput.PageSize input <=? 0 then
        Ret (Err (errorString "page size must be positive"))
      else
        Bucket_Get
          {| cosv5.BucketGetOptions.Prefix := storage.ListObjectsPaginatedInput.Prefix input;
             cosv5.BucketGetOptions.Marker := storage.ListObjectsPaginatedInput.Cursor input;
             cosv5.BucketGetOptions.MaxKeys := storage.ListObjectsPaginatedInput.PageSize input |}
          (fun r =>
             match r with
             | cosv5.Failed err => Ret (Err (wrapError "list objects failed: " (sdkError err)))
             | cosv5.Done result =>
                 let files := collectFiles (cosv5.BucketGetResult.Contents result) [] in
                 let opt := apply_opts opts storage.GetOption.zero in
                 tagged <- (if storage.GetOption.WithTagging opt
                            then taskgroup_Wait (map taggingTask files)
                            else Ret (Ok files)) ;;
                 match tagged with
                 | Err err => Ret (Err err)
                 | Ok files =>
                     withURL <- (if storage.GetOption.WithURL opt
                                 then AssembleFileUrl (storage.GetOption.Expire opt) files c
                                 else Ret (Ok files)) ;;
                     match withURL with
                     | Err err => Ret (Err err)
                     | Ok files =>
                         Ret (Ok {| storage.ListObjectsPaginatedOutput.Files := files;
                                    storage.ListObjectsPaginatedOutput.Cursor :=
                                      cosv5.BucketGetResult.NextMarker result;
                                    storage.ListObjectsPaginatedOutput.IsTruncated :=
                                      cosv5.BucketGetResult.IsTruncated result |})
                     end
                 end
             end)
  end.

Definition defaultPageSize : Z := 100.
Definition maxListObjects : Z := 10000.

(** The [for] loop of [ListAllObjects], unrolled at most [fuel] times:
    [None] when the loop is still running after [fuel] pages. *)
Fixpoint ListAllObjects_loop (fuel : nat) (c : cosClient) (prefix : string)
    (opts : list storage.GetOptFn) (files : list storage.FileInfo.t) (cursor : string)
  : Prog (option (result (list storage.FileInfo.t))) :=
  match fuel with
  | O => Ret None
  | S fuel' =>
      r <- ListObjectsPaginated c
             (Some {| storage.ListObjectsPaginatedInput.Prefix := prefix;
                      storage.ListObjectsPaginatedInput.PageSize := defaultPageSize;
                      storage.ListObjectsPaginatedInput.Cursor := cursor |})
             opts ;;
      match r with
      | Err err => Ret (Some (Err err))
      | Ok output =>
          let files := files ++ storage.ListObjectsPaginatedOutput.Files output in
          if Z.of_nat (length files) >=? maxListObjects then Ret (Some (Ok files))
          else if negb (storage.ListObjectsPaginatedOutput.IsTruncated output)
                  || String.eqb (storage.ListObjectsPaginatedOutput.Cursor output) ""
          then Ret (Some (Ok files))
          else ListAllObjects_loop fuel' c prefix opts files
                 (storage.ListObjectsPaginatedOutput.Cursor output)
      end
  end.

Definition ListAllObjects (fuel : nat) (c : cosClient) (prefix : string)
    (opts : list storage.GetOptFn) : Prog (option (result (list storage.FileInfo.t))) :=
  ListAllObjects_loop fuel c prefix opts [] "".

Definition HeadObject (c : cosClient) (objectKey : string)
    (opts : list storage.GetOptFn) : Prog (result storage.FileInfo.t) :=
  Object_Head objectKey (fun r =>
    match r with
    | cosv5.Failed err =>
        if IsNotFoundError (sdkError err) then Ret (Err ErrObjectNotFound)
        else Ret (Err (sdkError err))
    | cosv5.Done header =>
        let size := fst (strconv.ParseInt (http.Get header "Content-Length") 10 64) in
        let lastModified := fst (http_ParseTime (http.Get header "Last-Modified")) in
        let fileInfo :=
          {| storage.FileInfo.Key := objectKey;
             storage.FileInfo.LastModified := lastModified;
             storage.FileInfo.ETag := strings.Trim (http.Get header "ETag") (String quote "");
             storage.FileInfo.Size := size;
             storage.FileInfo.URL := "";
             storage.FileInfo.Tagging := None |} in
        let opt := apply_opts opts storage.GetOption.zero in
        tagged <- (if storage.GetOption.WithTagging opt
                   then Object_GetTagging objectKey (fun r =>
                          match r with
                          | cosv5.Failed err => Ret (Err (sdkError err))
                          | cosv5.Done tagging =>
                              Ret (Ok (storage.FileInfo.with_Tagging fileInfo
                                         (cosTagsToMap
                                            (cosv5.ObjectGetTaggingResult.TagSet tagging))))
                          end)
                   else Ret (Ok fileInfo)) ;;
        match tagged with
        | Err err => Ret (Err err)
        | Ok fileInfo =>
            if storage.GetOption.WithURL opt then
              u <- GetObjectUrl c objectKey opts ;;
              match u with
              | Err err => Ret (Err err)
              | Ok u => Ret (Ok (storage.FileInfo.with_URL fileInfo u))
              end
            else Ret (Ok fileInfo)
        end
    end).

End Client.

(** ** Vocabulary of the statements *)

(** The replies of the list primitive and of the tag fetches in a trace. *)
Definition list_replies (tr : list Event) : list (cosv5.BucketGetOptions.t * cosv5.reply cosv5.BucketGetResult.t) :=
  flat_map (fun ev => match ev with EvBucketGet opt x => [(opt, x)] | _ => [] end) tr.



(** A file as the listing produced it, before any enrichment. *)
Definition unenriched (f : storage.FileInfo.t) : storage.FileInfo.t :=
  storage.FileInfo.with_URL (storage.FileInfo.with_Tagging f None) "".


(** The content length a put hands to the SDK. *)
Definition sent_ContentLength {A : Type} (p : Prog A) : option Z :=
  match p with
  | Object_Put _ _ opt _ => Some (cosv5.ObjectPutOptions.ContentLength opt)
  | _ => None
  end.

(** The order of parsers the spec gives for [parseTime]: the first of
    [parsers] that accepts [raw] decides; the zero timestamp when [raw] is
    empty or no parser accepts it. *)
Fixpoint first_accepting (parsers : list (string -> option time.Time)) (raw : string)
  : option time.Time :=
  match parsers with
  | [] => None
  | p :: rest => match p raw with Some t => Some t | None => first_accepting rest raw end
  end.

(** The four parsers of the time normaliser, in the order of the spec: strict
    RFC 3339, RFC 3339 with fractional seconds, the millisecond layout, and
    the HTTP date. *)
Definition cos_parsers (time_Parse : string -> string -> option time.Time)
  : list (string -> option time.Time) :=
  [time_Parse time.RFC3339; time_Parse time.RFC3339Nano;
   time_Parse "2006-01-02T15:04:05.000Z";
   fun v => match http_ParseTime time_Parse v with
            | (t, true) => Some t
            | (_, false) => None
            end].

Definition parseTime_spec (time_Parse : string -> string -> option time.Time)
    (raw : string) : time.Time :=
  if String.eqb raw "" then time.zero
  else match first_accepting (cos_parsers time_Parse) raw with
       | Some t => t
       | None => time.zero
       end.

(** A region name made of unreserved URL bytes: letters, digits, [-._~]. *)
Definition is_unreserved (c : ascii) : bool :=
  is_alpha c || is_digit c || byte_among c "-._~".

Fixpoint all_unreserved (s : string) : bool :=
  match s with
  | EmptyString => true
  | String c s' => is_unreserved c && all_unreserved s'
  end.

(** The files a successful list reply stands for: its entries without the
    folder markers, in the order of the reply. *)
Definition page_files (time_Parse : string -> string -> option time.Time)
    (res : cosv5.BucketGetResult.t) : list storage.FileInfo.t :=
  map (toFileInfo time_Parse)
      (List.filter (fun obj => negb (is_dir_marker obj)) (cosv5.BucketGetResult.Contents res)).

(** The files of a sequence of list replies, and of all the list replies of
    a trace, in order. *)
Definition reply_files (time_Parse : string -> string -> option time.Time)
    (replies : list (cosv5.BucketGetOptions.t * cosv5.reply cosv5.BucketGetResult.t))
  : list storage.FileInfo.t :=
  flat_map (fun x => match x with
                     | (_, cosv5.Done res) => page_files time_Parse res
                     | (_, cosv5.Failed _) => []
                     end) replies.

Definition listed_files (time_Parse : string -> string -> option time.Time)
    (tr : list Event) : list storage.FileInfo.t :=
  reply_files time_Parse (list_replies tr).

Definition is_presign_event (ev : Event) : bool :=
  match ev with EvGetPresignedURL _ _ _ _ _ _ => true | _ => false end.

(** The exchange of a successful tag fetch for [f], and [f] with those tags. *)
Definition tag_event (f : storage.FileInfo.t) (t : cosv5.ObjectGetTaggingResult.t) : Event :=
  EvObjectGetTagging (storage.FileInfo.Key f) (cosv5.Done t).

Definition tagged (f : storage.FileInfo.t) (t : cosv5.ObjectGetTaggingResult.t)
  : storage.FileInfo.t :=
  storage.FileInfo.with_Tagging f (cosTagsToMap (cosv5.ObjectGetTaggingResult.TagSet t)).

(** An exchange in which the remote reported a failure. *)
Definition failed_event (ev : Event) : bool :=
  match ev with
  | EvBucketGet _ (cosv5.Failed _) | EvObjectPut _ _ _ (cosv5.Failed _)
  | EvObjectHead _ (cosv5.Failed _) | EvObjectGetTagging _ (cosv5.Failed _)
  | EvGetPresignedURL _ _ _ _ _ (cosv5.Failed _) => true
  | _ => false
  end.



(** The number of files of a full drain that returned. *)
Definition returned_count (x : option (result (list storage.FileInfo.t))) : option Z :=
  match x with
  | Some (Ok files) => Some (Z.of_nat (length files))
  | _ => None
  end.

(** The bucket host the spec derives from a service host: the bucket name
    and a dot in front of it, unless it already starts with them. *)
Definition bucket_host_spec (bucketName serviceHost : string) : string :=
  if strings.HasPrefix serviceHost (bucketName +:+ ".") then serviceHost
  else bucketName +:+ "." +:+ serviceHost.

(** The endpoint synthesised for a region. *)
Definition region_host (region : string) : string :=
  "cos." +:+ region +:+ ".myqcloud.com".


(** ** Sample collaborators, for the worked examples *)

(** A stand-in for [time.Parse] that knows the two timestamps of cos_test.go,
    each under the first layout of [parseCosTime] that accepts it in Go. *)
Definition sample_time_Parse (layout value : string) : option time.Time :=
  if String.eqb layout time.RFC3339 && String.eqb value "2025-01-02T03:04:05.000Z"
  then Some {| time.sec := 63871383845; time.nsec := 0 |}
  else if String.eqb layout http.TimeFormat && String.eqb value "Wed, 02 Oct 2002 08:00:00 GMT"
  then Some {| time.sec := 63169142400; time.nsec := 0 |}
  else None.

Definition sample_time_Format (t : time.Time) (layout : string) : string :=
  "Thu, 01 Jan 2026 00:00:00 GMT".

Definition sample_MapToQuery (m : gmap string string) : string :=
  String.concat "&" (map (fun kv => fst kv +:+ "=" +:+ snd kv) (map_to_list m)).

Definition sample_client : cosClient :=
  {| bucketName := "demo-bucket"; secretID := "id"; secretKey := "key" |}.

Definition sample_object (key : string) (size : Z) : cosv5.Object.t :=
  {| cosv5.Object.Key := key; cosv5.Object.ETag := ""; cosv5.Object.Size := size;
     cosv5.Object.LastModified := "" |}.

Definition sample_headers (contentLength lastModified etag : string) : http.Header :=
  <["Content-Length" := [contentLength]]>
    (<["Last-Modified" := [lastModified]]> (<["Etag" := [etag]]> ∅)).

Definition sample_tagging : cosv5.ObjectGetTaggingResult.t :=
  {| cosv5.ObjectGetTaggingResult.TagSet :=
       [ {| cosv5.ObjectTaggingTag.Key := "k1"; cosv5.ObjectTaggingTag.Value := "v1" |} ] |}.

(** A remote that never fails and reports truncation for ever: every page
    holds a folder marker followed by 99 objects, within the 100 keys asked
    for. *)
Definition endless_remote : Remote unit :=
  {| bucket_get := fun opt w =>
       (cosv5.Done
          {| cosv5.BucketGetResult.Contents :=
               sample_object "folder/" 0 :: repeat (sample_object "a.txt" 10) 99;
             cosv5.BucketGetResult.NextMarker := "a.txt";
             cosv5.BucketGetResult.IsTruncated := true |}, w);
     object_put := fun key body opt w => (cosv5.Done tt, w);
     object_head := fun key w =>
       (cosv5.Done (sample_headers "10" "Wed, 02 Oct 2002 08:00:00 GMT" "abc"), w);
     object_get_tagging := fun key w => (cosv5.Done sample_tagging, w);
     presigned_url := fun method key ak sk expire w =>
       (cosv5.Done ("https://demo-bucket.cos.ap-beijing.myqcloud.com/" +:+ key), w) |}.

(** A remote with a single page: a folder marker and the objects [a.txt],
    [b.txt] and, when [with_bad] is set, [bad], whose tags cannot be fetched.
    A head of [missing] is answered with status 404, a head of [denied] with
    status 403; the headers of [garbled] and of [odd] hold no number and no
    date. *)
Definition small_remote (with_bad : bool) : Remote unit :=
  {| bucket_get := fun opt w =>
       (cosv5.Done
          {| cosv5.BucketGetResult.Contents :=
               [sample_object "folder/" 0; sample_object "a.txt" 10]
               ++ (if with_bad then [sample_object "bad" 1] else [])
               ++ [sample_object "b.txt" 0];
             cosv5.BucketGetResult.NextMarker := "";
             cosv5.BucketGetResult.IsTruncated := false |}, w);
     object_put := fun key body opt w => (cosv5.Done tt, w);
     object_head := fun key w =>
       if String.eqb key "missing" then (cosv5.Failed (ErrorResponse 404 "NoSuchKey" ""), w)
       else if String.eqb key "denied" then
         (cosv5.Failed (ErrorResponse 403 "AccessDenied" ""), w)
       else if String.eqb key "garbled" then
         (cosv5.Done (sample_headers "99999999999999999999x" "yesterday" "abc"), w)
       else if String.eqb key "odd" then
         (cosv5.Done (sample_headers "12 bytes" "yesterday" "abc"), w)
       else (cosv5.Done (sample_headers "10" "Wed, 02 Oct 2002 08:00:00 GMT" "abc"), w);
     object_get_tagging := fun key w =>
       if String.eqb key "bad" then (cosv5.Failed (TransportError "timeout"), w)
       else (cosv5.Done sample_tagging, w);
     presigned_url := fun method key ak sk expire w =>
       (cosv5.Done ("https://demo-bucket.cos.ap-beijing.myqcloud.com/" +:+ key), w) |}.

Definition page_input (pageSize : Z) : storage.ListObjectsPaginatedInput.t :=
  {| storage.ListObjectsPaginatedInput.Prefix := "";
     storage.ListObjectsPaginatedInput.PageSize := pageSize;
     storage.ListObjectsPaginatedInput.Cursor := "" |}.

(** The two files of the page of [small_remote false], as listed. *)
Definition sample_files : list storage.FileInfo.t :=
  [ {| storage.FileInfo.Key := "a.txt"; storage.FileInfo.LastModified := time.zero;
       storage.FileInfo.ETag := ""; storage.FileInfo.Size := 10;
       storage.FileInfo.URL := ""; storage.FileInfo.Tagging := None |};
    {| storage.FileInfo.Key := "b.txt"; storage.FileInfo.LastModified := time.zero;
       storage.FileInfo.ETag := ""; storage.FileInfo.Size := 0;
       storage.FileInfo.URL := ""; storage.FileInfo.Tagging := None |} ].

(** ** Bucket bootstrap and object transfer

    The rest of cos.go: client construction with its bucket check, and the
    get and delete of an object.  These methods make one or two SDK calls
    each and are written with the state of the service passed along; a run
    gives the value returned, the state the service is left in and the
    exchanges in order. *)

(** [cosv5.BucketPutOptions], with the one field the client sets. *)
Module BucketPutOptions.
Record t : Type := mk { XCosACL : string }.
End BucketPutOptions.

(** The body of a get reply as [io.ReadAll] finds it: the bytes it could
    read and the error that ended the read, if any. *)
Record Body : Type := mkBody {
  body_data : string;
  body_err : option cos_error
}.

(** The SDK client built by [cosv5.NewClient(baseURL, httpClient)], the
    transport of the HTTP client being an [AuthorizationTransport] with the
    two secrets. *)
Record sdkClient : Type := mkSdkClient {
  clientBaseURL : BaseURL;
  transportSecretID : string;
  transportSecretKey : string
}.

(** How the service answers the bucket calls and the object get and delete,
    from a state [W] of its own. *)
Record Store (W : Type) : Type := mkStore {
  bucket_is_exist : W -> cosv5.reply bool * W;
  bucket_put : BucketPutOptions.t -> W -> cosv5.reply unit * W;
  object_get : string -> W -> cosv5.reply Body * W;
  object_delete : string -> W -> cosv5.reply unit * W
}.
Arguments bucket_is_exist {W} s w.
Arguments bucket_put {W} s opt w.
Arguments object_get {W} s key w.
Arguments object_delete {W} s key w.

Inductive StoreEvent : Type :=
| EvBucketIsExist (reply : cosv5.reply bool)
| EvBucketPut (opt : BucketPutOptions.t) (reply : cosv5.reply unit)
| EvObjectGet (key : string) (reply : cosv5.reply Body)
| EvObjectDelete (key : string) (reply : cosv5.reply unit).

Definition CheckAndCreateBucket {W : Type} (s : Store W) (c : cosClient) (w : W)
  : option error * W * list StoreEvent :=
  let '(exist_, w1) := bucket_is_exist s w in
  match exist_ with
  | cosv5.Failed err =>
      (Some (wrapError "check bucket failed: " (sdkError err)), w1, [EvBucketIsExist exist_])
  | cosv5.Done true => (None, w1, [EvBucketIsExist exist_])
  | cosv5.Done false =>
      let opt := {| BucketPutOptions.XCosACL := "private" |} in
      let '(r, w2) := bucket_put s opt w1 in
      match r with
      | cosv5.Failed err =>
          (Some (wrapError "create bucket failed: " (sdkError err)), w2,
           [EvBucketIsExist exist_; EvBucketPut opt r])
      | cosv5.Done _ => (None, w2, [EvBucketIsExist exist_; EvBucketPut opt r])
      end
  end.

(** [getCosClient]: the value is the [*cosClient] with the SDK client it
    holds, or the error and no client. *)
Definition getCosClient {W : Type} (s : Store W)
    (secretID secretKey bucketName endpoint region : string) (w : W)
  : result (sdkClient * cosClient) * W * list StoreEvent :=
  match buildBaseURL bucketName endpoint region with
  | Err err => (Err err, w, [])
  | Ok baseURL =>
      let client := {| clientBaseURL := baseURL; transportSecretID := secretID;
                       transportSecretKey := secretKey |} in
      let c := {| bucketName := bucketName; secretID := secretID;
                  secretKey := secretKey |} in
      let '(err, w1, tr) := CheckAndCreateBucket s c w in
      match err with
      | Some err => (Err err, w1, tr)
      | None => (Ok (client, c), w1, tr)
      end
  end.

(** [New] and [NewStorageImagex] hand out the client of [getCosClient] under
    the two interfaces it implements. *)
Definition New {W : Type} (s : Store W)
    (secretID secretKey bucketName endpoint region : string) (w : W)
  : result (sdkClient * cosClient) * W * list StoreEvent :=
  let '(c, w1, tr) := getCosClient s secretID secretKey bucketName endpoint region w in
  match c with
  | Err err => (Err err, w1, tr)
  | Ok c => (Ok c, w1, tr)
  end.

Definition NewStorageImagex {W : Type} (s : Store W)
    (secretID secretKey bucketName endpoint region : string) (w : W)
  : result (sdkClient * cosClient) * W * list StoreEvent :=
  let '(c, w1, tr) := getCosClient s secretID secretKey bucketName endpoint region w in
  match c with
  | Err err => (Err err, w1, tr)
  | Ok c => (Ok c, w1, tr)
  end.

Definition GetObject {W : Type} (s : Store W) (c : cosClient) (objectKey : string) (w : W)
  : result string * W * list StoreEvent :=
  let '(resp, w1) := object_get s objectKey w in
  match resp with
  | cosv5.Failed err => (Err (sdkError err), w1, [EvObjectGet objectKey resp])
  | cosv5.Done body =>
      match body_err body with
      | Some err => (Err (sdkError err), w1, [EvObjectGet objectKey resp])
      | None => (Ok (body_data body), w1, [EvObjectGet objectKey resp])
      end
  end.

Definition DeleteObject {W : Type} (s : Store W) (c : cosClient) (objectKey : string) (w : W)
  : option error * W * list StoreEvent :=
  let '(resp, w1) := object_delete s objectKey w in
  match resp with
  | cosv5.Failed err => (Some (sdkError err), w1, [EvObjectDelete objectKey resp])
  | cosv5.Done _ => (None, w1, [EvObjectDelete objectKey resp])
  end.

(** ** The ImageX face of the client (cos_imagex.go) *)

(** Modelled from the spec: the package backend/infra/imagex, imported by
    cos_imagex.go, is not part of the files embedded here; the two records
    carry the fields cos_imagex.go fills in. *)
Module imagex.


Record ResourceURL : Type := mkResourceURL { URL : string }.

End imagex.

(** [GetResourceURL]: the options handed in are not looked at. *)
Definition GetResourceURL {O : Type} (c : cosClient) (uri : string) (opts : list O)
  : Prog (result imagex.ResourceURL) :=
  u <- GetObjectUrl c uri [] ;;
  match u with
  | Err err => Ret (Err err)
  | Ok u => Ret (Ok {| imagex.URL := u |})
  end.



Section Imagex.

(** What [GetUploadAuth] reads from its surroundings: the environment
    ([os.Getenv]), the name of the variable that holds the upload scheme
    ([consts.StorageUploadHTTPScheme], declared outside the files embedded
    here), and [t.Format(layout)] in the local time zone. *)
Variable Getenv : string -> string.
Variable StorageUploadHTTPScheme : string.
Variable time_Format_local : time.Time -> string -> string.


End Imagex.

(** ** Vocabulary of the further statements *)

(** The value of the last tag of [tags] whose key is [k]. *)
Fixpoint last_tag_value (k : string) (tags : list cosv5.ObjectTaggingTag.t) : option string :=
  match tags with
  | [] => None
  | tag :: rest =>
      match last_tag_value k rest with
      | Some v => Some v
      | None =>
          if String.eqb (cosv5.ObjectTaggingTag.Key tag) k
          then Some (cosv5.ObjectTaggingTag.Value tag) else None
      end
  end.

Definition first_byte (s : string) : option ascii :=
  match s with
  | EmptyString => None
  | String c _ => Some c
  end.

Fixpoint last_byte (s : string) : option ascii :=
  match s with
  | EmptyString => None
  | String c s' =>
      match last_byte s' with
      | Some d => Some d
      | None => Some c
      end
  end.

(** Neither end of [s] is a double quote. *)
Definition unquoted (s : string) : Prop :=
  first_byte s <> Some quote /\ last_byte s <> Some quote.


(** The list calls of a drain of [prefix] that starts at [cursor]: each asks
    for 100 keys of the prefix from the marker the reply before it gave, and
    a call is followed by another one only if its reply was a truncated page
    with a marker to go on from. *)
Fixpoint drained (prefix cursor : string)
    (replies : list (cosv5.BucketGetOptions.t * cosv5.reply cosv5.BucketGetResult.t)) : Prop :=
  match replies with
  | [] => True
  | (opt, x) :: rest =>
      opt = {| cosv5.BucketGetOptions.Prefix := prefix;
               cosv5.BucketGetOptions.Marker := cursor;
               cosv5.BucketGetOptions.MaxKeys := 100 |}
      /\ match rest with
         | [] => True
         | _ :: _ =>
             exists res,
               x = cosv5.Done res
               /\ cosv5.BucketGetResult.IsTruncated res = true
               /\ cosv5.BucketGetResult.NextMarker res <> ""
               /\ drained prefix (cosv5.BucketGetResult.NextMarker res) rest
         end
  end.

(** A program that reports an error exactly when an exchange failed: a
    value it returns without a failed reply is not an error ([bad] tells the
    errors), and the continuation of a failed reply returns an error at once,
    without another call. *)
Inductive fails_fast {A : Type} (bad : A -> bool) : Prog A -> Prop :=
| ff_Ret (a : A) : bad a = false -> fails_fast bad (Ret a)
| ff_Bucket_Get opt k :
    (forall err, exists a, k (cosv5.Failed err) = Ret a /\ bad a = true) ->
    (forall v, fails_fast bad (k (cosv5.Done v))) ->
    fails_fast bad (Bucket_Get opt k)
| ff_Object_Put key body opt k :
    (forall err, exists a, k (cosv5.Failed err) = Ret a /\ bad a = true) ->
    (forall v, fails_fast bad (k (cosv5.Done v))) ->
    fails_fast bad (Object_Put key body opt k)
| ff_Object_Head key k :
    (forall err, exists a, k (cosv5.Failed err) = Ret a /\ bad a = true) ->
    (forall v, fails_fast bad (k (cosv5.Done v))) ->
    fails_fast bad (Object_Head key k)
| ff_Object_GetTagging key k :
    (forall err, exists a, k (cosv5.Failed err) = Ret a /\ bad a = true) ->
    (forall v, fails_fast bad (k (cosv5.Done v))) ->
    fails_fast bad (Object_GetTagging key k)
| ff_Object_GetPresignedURL m key ak sk e k :
    (forall err, exists a, k (cosv5.Failed err) = Ret a /\ bad a = true) ->
    (forall v, fails_fast bad (k (cosv5.Done v))) ->
    fails_fast bad (Object_GetPresignedURL m key ak sk e k).

Definition is_Err {A : Type} (r : result A) : bool :=
  match r with Err _ => true | Ok _ => false end.


Definition is_Some_error (r : option error) : bool :=
  match r with Some _ => true | None => false end.

(** A trace in which nothing failed but, when [bad] is set, the last
    exchange. *)
Definition failure_only_last (bad : bool) (tr : list Event) : Prop :=
  if bad
  then exists pre ev, tr = pre ++ [ev] /\ failed_event ev = true
                      /\ existsb failed_event pre = false
  else existsb failed_event tr = false.

Definition is_bucket_put (ev : StoreEvent) : bool :=
  match ev with EvBucketPut _ _ => true | _ => false end.

Definition failed_store_event (ev : StoreEvent) : bool :=
  match ev with
  | EvBucketIsExist (cosv5.Failed _) | EvBucketPut _ (cosv5.Failed _)
  | EvObjectGet _ (cosv5.Failed _) | EvObjectDelete _ (cosv5.Failed _) => true
  | _ => false
  end.

(** ** A sample store *)

(** A service whose state tells whether the bucket exists; creating it
    succeeds unless [locked] is set.  The object [a.txt] can be fetched, the
    body of [cut] breaks off while it is read, every other key is answered
    with status 404. *)
Definition sample_store (locked : bool) : Store bool :=
  {| bucket_is_exist := fun w => (cosv5.Done w, w);
     bucket_put := fun opt w =>
       if locked then (cosv5.Failed (ErrorResponse 403 "AccessDenied" ""), w)
       else (cosv5.Done tt, true);
     object_get := fun key w =>
       if String.eqb key "a.txt" then
         (cosv5.Done {| body_data := "hello"; body_err := None |}, w)
       else if String.eqb key "cut" then
         (cosv5.Done {| body_data := "hel";
                        body_err := Some (TransportError "unexpected EOF") |}, w)
       else (cosv5.Failed (ErrorResponse 404 "NoSuchKey" ""), w);
     object_delete := fun key w => (cosv5.Done tt, w) |}.

Definition sample_Getenv (name : string) : string :=
  if String.eqb name "STORAGE_UPLOAD_HTTP_SCHEME" then "HTTPS" else "".

(** * Properties *)

(** ** Running programs *)

Lemma run_bind {W A B : Type} (r : Remote W) (p : Prog A) (f : A -> Prog B) (w : W) :
  run r (bind p f) w =
  let '(a, w1, t1) := run r p w in
  let '(b, w2, t2) := run r (f a) w1 in (b, w2, t1 ++ t2).
Proof.
  revert w. induction p as [a|opt k IH|key body opt k IH|key k IH|key k IH|m key ak sk e k IH];
    intros w; simpl.
  - destruct (run r (f a) w) as [[b w2] t2]. reflexivity.
  - destruct (bucket_get r opt w) as [x w1]. rewrite IH.
    destruct (run r (k x) w1) as [[a w2] t1].
    destruct (run r (f a) w2) as [[b w3] t2]. reflexivity.
  - destruct (object_put r key body opt w) as [x w1]. rewrite IH.
    destruct (run r (k x) w1) as [[a w2] t1].
    destruct (run r (f a) w2) as [[b w3] t2]. reflexivity.
  - destruct (object_head r key w) as [x w1]. rewrite IH.
    destruct (run r (k x) w1) as [[a w2] t1].
    destruct (run r (f a) w2) as [[b w3] t2]. reflexivity.
  - destruct (object_get_tagging r key w) as [x w1]. rewrite IH.
    destruct (run r (k x) w1) as [[a w2] t1].
    destruct (run r (f a) w2) as [[b w3] t2]. reflexivity.
  - destruct (presigned_url r m key ak sk e w) as [x w1]. rewrite IH.
    destruct (run r (k x) w1) as [[a w2] t1].
    destruct (run r (f a) w2) as [[b w3] t2]. reflexivity.
Qed.

Lemma run_bind_inv {W A B : Type} (r : Remote W) (p : Prog A) (f : A -> Prog B)
    (w w2 : W) (b : B) (tr : list Event) :
  run r (bind p f) w = (b, w2, tr) ->
  exists a w1 t1 t2,
    run r p w = (a, w1, t1) /\ run r (f a) w1 = (b, w2, t2) /\ tr = t1 ++ t2.
Proof.
  rewrite run_bind. destruct (run r p w) as [[a w1] t1].
  destruct (run r (f a) w1) as [[b' w2'] t2] eqn:Hf. intros H. injection H as <- <- <-.
  exists a, w1, t1, t2. split; [reflexivity|]. split; [exact Hf|reflexivity].
Qed.

(** ** Strings *)

Lemma append_nil_l (s : string) : "" +:+ s = s.
Proof. reflexivity. Qed.

Lemma append_cons (c : ascii) (s t : string) : String c s +:+ t = String c (s +:+ t).
Proof. reflexivity. Qed.

Lemma apply_opts_app {O : Type} (opts1 opts2 : list (O -> O)) (o : O) :
  apply_opts (opts1 ++ opts2) o = apply_opts opts2 (apply_opts opts1 o).
Proof. unfold apply_opts. apply fold_left_app. Qed.

Section Properties.

Variable time_Parse : string -> string -> option time.Time.
Variable time_Format : time.Time -> string -> string.
Variable MapToQuery : gmap string string -> string.

(** ** Input validation of the page call *)

(** C5. [ListObjectsPaginated] answers a nil input and a page size that is
    not positive with an error, having exchanged nothing with the remote and
    left it as it was; for a positive page size its first exchange is the
    list primitive called with the prefix, the cursor as marker and the page
    size as the maximal number of keys. *)
Theorem ListObjectsPaginated_validates_input :
  forall (W : Type) (r : Remote W) (w : W) (c : cosClient) (opts : list storage.GetOptFn),
    run r (ListObjectsPaginated time_Parse c None opts) w
      = (Err (errorString "input cannot be nil"), w, [])
    /\ (forall input,
          storage.ListObjectsPaginatedInput.PageSize input <= 0 ->
          run r (ListObjectsPaginated time_Parse c (Some input) opts) w
            = (Err (errorString "page size must be positive"), w, []))
    /\ (forall input,
          0 < storage.ListObjectsPaginatedInput.PageSize input ->
          exists reply rest,
            trace (run r (ListObjectsPaginated time_Parse c (Some input) opts) w)
              = EvBucketGet
                  {| cosv5.BucketGetOptions.Prefix :=
                       storage.ListObjectsPaginatedInput.Prefix input;
                     cosv5.BucketGetOptions.Marker :=
                       storage.ListObjectsPaginatedInput.Cursor input;
                     cosv5.BucketGetOptions.MaxKeys :=
                       storage.ListObjectsPaginatedInput.PageSize input |}
                  reply :: rest).
Proof.
  intros W r w c opts. split; [reflexivity|]. split.
  - intros input Hle. unfold ListObjectsPaginated.
    destruct (Z.leb_spec (storage.ListObjectsPaginatedInput.PageSize input) 0); [reflexivity|lia].
  - intros input Hpos. unfold ListObjectsPaginated.
    destruct (Z.leb_spec (storage.ListObjectsPaginatedInput.PageSize input) 0); [lia|].
    cbn [run]. destruct (bucket_get r _ w) as [x w1].
    match goal with |- context [run r ?p w1] => destruct (run r p w1) as [[a w2] tr] end.
    exists x, tr. reflexivity.
Qed.

(** ** Head *)

(** C6. When the head call of the SDK fails, [HeadObject] makes no further
    call and returns no file: the [ErrObjectNotFound] sentinel when the SDK
    error is a not-found one, and otherwise the SDK error itself, which is
    never the sentinel. *)
Theorem HeadObject_maps_not_found :
  forall (W : Type) (r : Remote W) (w w' : W) (c : cosClient) (objectKey : string)
         (opts : list storage.GetOptFn) (err : cos_error),
    object_head r objectKey w = (cosv5.Failed err, w') ->
    (IsNotFoundError (sdkError err) = true ->
       run r (HeadObject time_Parse c objectKey opts) w
         = (Err ErrObjectNotFound, w', [EvObjectHead objectKey (cosv5.Failed err)]))
    /\ (IsNotFoundError (sdkError err) = false ->
          run r (HeadObject time_Parse c objectKey opts) w
            = (Err (sdkError err), w', [EvObjectHead objectKey (cosv5.Failed err)])
          /\ sdkError err <> ErrObjectNotFound).
Proof.
  intros W r w w' c objectKey opts err Hhead. unfold HeadObject. cbn [run].
  rewrite Hhead. split; intros Hnf; rewrite Hnf; cbn [run]; [reflexivity|].
  split; [reflexivity|discriminate].
Qed.

(** ** Time normaliser *)

Lemma first_layout_accepting (layouts : list string) (value : string) :
  first_layout time_Parse layouts value = first_accepting (map time_Parse layouts) value.
Proof.
  induction layouts as [|layout rest IH]; simpl; [reflexivity|].
  destruct (time_Parse layout value); [reflexivity|exact IH].
Qed.

Lemma first_accepting_app (ps qs : list (string -> option time.Time)) (raw : string) :
  first_accepting (ps ++ qs) raw =
  match first_accepting ps raw with
  | Some t => Some t
  | None => first_accepting qs raw
  end.
Proof.
  induction ps as [|p ps IH]; simpl; [reflexivity|].
  destruct (p raw); [reflexivity|exact IH].
Qed.

Lemma first_accepting_none (ps : list (string -> option time.Time)) (raw : string) :
  Forall (fun p => p raw = None) ps -> first_accepting ps raw = None.
Proof.
  induction 1 as [|p ps Hp _ IH]; simpl; [reflexivity|]. rewrite Hp. exact IH.
Qed.

Lemma parseCosTime_refines_spec (value : string) :
  parseCosTime time_Parse value = parseTime_spec time_Parse value.
Proof.
  unfold parseCosTime, parseTime_spec.
  destruct (String.eqb value ""); [reflexivity|].
  rewrite first_layout_accepting.
  change (cos_parsers time_Parse) with
    (map time_Parse [time.RFC3339; time.RFC3339Nano; "2006-01-02T15:04:05.000Z"]
     ++ [fun v => match http_ParseTime time_Parse v with
                  | (t, true) => Some t
                  | (_, false) => None
                  end]).
  rewrite first_accepting_app.
  destruct (first_accepting (map time_Parse _) value) as [t|]; [reflexivity|].
  simpl. destruct (http_ParseTime time_Parse value) as [t [|]]; reflexivity.
Qed.

(** C9. [parseCosTime] is a total function of its input that agrees with
    the order of the spec: the empty string gives the zero timestamp;
    otherwise strict RFC 3339, RFC 3339 with fractional seconds, the
    millisecond layout and the HTTP date are tried in this order, the first
    parser that accepts the text decides the result, and the zero timestamp
    is returned when none accepts it. *)
Theorem parseCosTime_first_layout_wins :
  forall value : string,
    parseCosTime time_Parse value = parseTime_spec time_Parse value
    /\ parseCosTime time_Parse "" = time.zero
    /\ (forall before p after t,
          value <> "" ->
          cos_parsers time_Parse = before ++ p :: after ->
          Forall (fun q => q value = None) before ->
          p value = Some t ->
          parseCosTime time_Parse value = t)
    /\ (Forall (fun q => q value = None) (cos_parsers time_Parse) ->
        parseCosTime time_Parse value = time.zero).
Proof.
  intros value. split; [apply parseCosTime_refines_spec|]. split; [reflexivity|].
  assert (Hspec : parseCosTime time_Parse value =
                  if String.eqb value "" then time.zero
                  else match first_accepting (cos_parsers time_Parse) value with
                       | Some t => t
                       | None => time.zero
                       end)
    by (rewrite parseCosTime_refines_spec; reflexivity).
  split.
  - intros before p after t Hne Hsplit Hbefore Hp. rewrite Hspec.
    destruct (String.eqb_spec value ""); [contradiction|].
    rewrite Hsplit, first_accepting_app, (first_accepting_none _ _ Hbefore).
    simpl. rewrite Hp. reflexivity.
  - intros Hall. rewrite Hspec, (first_accepting_none _ _ Hall).
    destruct (String.eqb value ""); reflexivity.
Qed.

(** ** One page *)

Lemma collectFiles_filter (contents : list cosv5.Object.t) (files : list storage.FileInfo.t) :
  collectFiles time_Parse contents files =
  files ++ map (toFileInfo time_Parse) (List.filter (fun obj => negb (is_dir_marker obj)) contents).
Proof.
  revert files. induction contents as [|obj rest IH]; intros files; simpl.
  - symmetry. apply app_nil_r.
  - destruct (is_dir_marker obj); simpl; rewrite IH; [reflexivity|].
    rewrite <- app_assoc. reflexivity.
Qed.


(** How the tagging fan-out runs: either every fetch succeeds and each file
    comes back with the tags fetched for it, or the trace ends in the failed
    fetch and the group reports that error. *)
Lemma run_tagging_group {W : Type} (r : Remote W) (files : list storage.FileInfo.t)
    (w w' : W) (v : result (list storage.FileInfo.t)) (tr : list Event) :
  run r (taskgroup_Wait (map taggingTask files)) w = (v, w', tr) ->
  (exists ts,
      length ts = length files
      /\ v = Ok (zip_with tagged files ts)
      /\ tr = zip_with tag_event files ts)
  \/ (exists ts key err,
         v = Err (sdkError err)
         /\ tr = zip_with tag_event files ts ++ [EvObjectGetTagging key (cosv5.Failed err)]).
Proof.
  revert w w' v tr. induction files as [|f rest IH]; intros w w' v tr Hrun.
  - injection Hrun as <- <- <-. left. exists []. repeat split.
  - cbn [map taskgroup_Wait] in Hrun.
    apply run_bind_inv in Hrun as (a & w1 & t1 & t2 & Htask & Hrest & ->).
    unfold taggingTask in Htask. cbn [run] in Htask.
    destruct (object_get_tagging r (storage.FileInfo.Key f) w) as [[t|err] w0];
      injection Htask as <- <- <-.
    + apply run_bind_inv in Hrest as (rs & w2 & t3 & t4 & Hgroup & Hret & ->).
      apply IH in Hgroup as [(ts & Hlen & -> & ->)|(ts & key & err & -> & ->)];
        injection Hret as <- <- <-.
      * left. exists (t :: ts). cbn. rewrite Hlen, app_nil_r. repeat split.
      * right. exists (t :: ts), key, err. cbn. rewrite app_nil_r. split; reflexivity.
    + injection Hrest as <- <- <-.
      right. exists [], (storage.FileInfo.Key f), err. split; reflexivity.
Qed.

(** The URL fan-out only exchanges presign calls, and a page it returns is
    the page it was given with a URL on every file. *)
Lemma run_AssembleFileUrl {W : Type} (r : Remote W) (c : cosClient) (expire : Z)
    (files : list storage.FileInfo.t) (w w' : W) (v : result (list storage.FileInfo.t))
    (tr : list Event) :
  run r (AssembleFileUrl expire files c) w = (v, w', tr) ->
  forallb is_presign_event tr = true
  /\ (forall l, v = Ok l ->
                exists us, length us = length files
                           /\ l = zip_with storage.FileInfo.with_URL files us)
  /\ (forall e, v = Err e -> existsb failed_event tr = true).
Proof.
  unfold AssembleFileUrl. revert w w' v tr.
  induction files as [|f rest IH]; intros w w' v tr Hrun.
  - injection Hrun as <- <- <-. split; [reflexivity|]. split; [|discriminate].
    intros l Hl. injection Hl as <-. exists []. split; reflexivity.
  - cbn [map taskgroup_Wait] in Hrun.
    apply run_bind_inv in Hrun as (a & w1 & t1 & t2 & Htask & Hrest & ->).
    unfold urlTask, GetObjectUrl in Htask. cbn [bind run] in Htask.
    destruct (presigned_url r _ _ _ _ _ w) as [[u|err] w0];
      injection Htask as <- <- <-.
    + apply run_bind_inv in Hrest as (rs & w2 & t3 & t4 & Hgroup & Hret & ->).
      apply IH in Hgroup as (Htr & Hv & He).
      destruct rs as [l'|e]; injection Hret as <- <- <-;
        (split; [cbn; rewrite app_nil_r; exact Htr|]); split.
      * intros l Hl. injection Hl as <-. destruct (Hv l' eq_refl) as (us & Hlen & ->).
        exists (u :: us). cbn. split; congruence.
      * discriminate.
      * discriminate.
      * intros e' _. cbn. rewrite app_nil_r. exact (He e eq_refl).
    + injection Hrest as <- <- <-. split; [reflexivity|]. split; [discriminate|].
      intros e _. reflexivity.
Qed.

Lemma with_URL_same (f : storage.FileInfo.t) :
  storage.FileInfo.with_URL f (storage.FileInfo.URL f) = f.
Proof. destruct f. reflexivity. Qed.

Lemma zip_with_URL_same (files : list storage.FileInfo.t) :
  zip_with storage.FileInfo.with_URL files (map storage.FileInfo.URL files) = files.
Proof.
  induction files as [|f rest IH]; cbn; [reflexivity|].
  rewrite with_URL_same, IH. reflexivity.
Qed.

(** The shape of every run of a page call that passed validation: the list
    exchange first, then the tag fetches, then the presign calls.  Either a
    tag fetch failed, which ends the run with that error, or the page
    returned, if any, is the listed files in order, each with the tags
    fetched for it when tagging was asked for, and with some URL. *)
Lemma run_page {W : Type} (r : Remote W) (c : cosClient)
    (input : storage.ListObjectsPaginatedInput.t) (opts : list storage.GetOptFn)
    (w w' : W) (v : result storage.ListObjectsPaginatedOutput.t) (tr : list Event) :
  0 < storage.ListObjectsPaginatedInput.PageSize input ->
  run r (ListObjectsPaginated time_Parse c (Some input) opts) w = (v, w', tr) ->
  exists x rest,
    tr = EvBucketGet
           {| cosv5.BucketGetOptions.Prefix := storage.ListObjectsPaginatedInput.Prefix input;
              cosv5.BucketGetOptions.Marker := storage.ListObjectsPaginatedInput.Cursor input;
              cosv5.BucketGetOptions.MaxKeys := storage.ListObjectsPaginatedInput.PageSize input |}
           x :: rest
    /\ match x with
       | cosv5.Failed err =>
           v = Err (wrapError "list objects failed: " (sdkError err)) /\ rest = []
       | cosv5.Done res =>
           let opt := apply_opts opts storage.GetOption.zero in
           let files := page_files time_Parse res in
           exists tag_tr url_tr,
             rest = tag_tr ++ url_tr
             /\ forallb is_presign_event url_tr = true
             /\ ((exists ts key err,
                     storage.GetOption.WithTagging opt = true
                     /\ v = Err (sdkError err)
                     /\ tag_tr = zip_with tag_event files ts
                                 ++ [EvObjectGetTagging key (cosv5.Failed err)]
                     /\ url_tr = [])
                 \/ (exists files1,
                        ((storage.GetOption.WithTagging opt = false
                          /\ files1 = files /\ tag_tr = [])
                         \/ (storage.GetOption.WithTagging opt = true
                             /\ exists ts, length ts = length files
                                           /\ files1 = zip_with tagged files ts
                                           /\ tag_tr = zip_with tag_event files ts))
                        /\ (forall out,
                               v = Ok out ->
                               storage.ListObjectsPaginatedOutput.Cursor out
                                 = cosv5.BucketGetResult.NextMarker res
                               /\ storage.ListObjectsPaginatedOutput.IsTruncated out
                                  = cosv5.BucketGetResult.IsTruncated res
                               /\ exists us,
                                    length us = length files1
                                    /\ storage.ListObjectsPaginatedOutput.Files out
                                       = zip_with storage.FileInfo.with_URL files1 us)
                        /\ (forall e, v = Err e -> existsb failed_event url_tr = true)))
       end.
Proof.
  intros Hpos Hrun. unfold ListObjectsPaginated in Hrun.
  destruct (Z.leb_spec (storage.ListObjectsPaginatedInput.PageSize input) 0); [lia|].
  cbn [run] in Hrun. destruct (bucket_get r _ w) as [x w0].
  destruct (run r _ w0) as [[v0 w1] rest] eqn:Hrest. injection Hrun as <- <- <-.
  exists x, rest. split; [reflexivity|].
  destruct x as [res|err].
  - cbn zeta. rewrite collectFiles_filter in Hrest. cbn [app] in Hrest.
    fold (page_files time_Parse res) in Hrest.
    set (files := page_files time_Parse res) in *.
    set (opt := apply_opts opts storage.GetOption.zero) in *.
    apply run_bind_inv in Hrest as (tg & w2 & tag_tr & t2 & Htag & Hrest & ->).
    assert (Htagged :
              (exists ts key err,
                  storage.GetOption.WithTagging opt = true /\ tg = Err (sdkError err)
                  /\ tag_tr = zip_with tag_event files ts
                              ++ [EvObjectGetTagging key (cosv5.Failed err)])
              \/ (exists files1,
                     tg = Ok files1
                     /\ ((storage.GetOption.WithTagging opt = false
                          /\ files1 = files /\ tag_tr = [])
                         \/ (storage.GetOption.WithTagging opt = true
                             /\ exists ts, length ts = length files
                                           /\ files1 = zip_with tagged files ts
                                           /\ tag_tr = zip_with tag_event files ts)))).
    { destruct (storage.GetOption.WithTagging opt) eqn:Hwt.
      - apply run_tagging_group in Htag as [(ts & Hlen & -> & ->)|(ts & key & err & -> & ->)].
        + right. eexists. split; [reflexivity|]. right. split; [reflexivity|].
          exists ts. repeat split. exact Hlen.
        + left. exists ts, key, err. repeat split.
      - injection Htag as <- <- <-. right. exists files. split; [reflexivity|].
        left. repeat split. }
    destruct Htagged as [(ts & key & err & Hwt & -> & ->)|(files1 & -> & Hfiles1)].
    + injection Hrest as <- <- <-.
      exists (zip_with tag_event files ts ++ [EvObjectGetTagging key (cosv5.Failed err)]), [].
      split; [reflexivity|]. split; [reflexivity|].
      left. exists ts, key, err. repeat split. exact Hwt.
    + apply run_bind_inv in Hrest as (wu & w3 & url_tr & t3 & Hurl & Hret & ->).
      assert (Hurls : forallb is_presign_event url_tr = true
                      /\ (forall l, wu = Ok l ->
                                    exists us, length us = length files1
                                               /\ l = zip_with storage.FileInfo.with_URL files1 us)
                      /\ (forall e, wu = Err e -> existsb failed_event url_tr = true)).
      { destruct (storage.GetOption.WithURL opt).
        - apply run_AssembleFileUrl in Hurl. exact Hurl.
        - injection Hurl as <- <- <-. split; [reflexivity|]. split; [|discriminate].
          intros l Hl. injection Hl as <-. exists (map storage.FileInfo.URL files1).
          split; [apply length_map|]. symmetry. apply zip_with_URL_same. }
      destruct Hurls as (Hpre & Hus & Hue).
      exists tag_tr, url_tr.
      assert (Ht3 : t3 = []) by (destruct wu; injection Hret as <- <- <-; reflexivity).
      subst t3. rewrite app_nil_r. split; [reflexivity|]. split; [exact Hpre|].
      right. exists files1. split; [exact Hfiles1|]. split.
      * intros out Hout. subst v0.
        destruct wu as [l|e]; [|discriminate Hret].
        injection Hret as <- _. cbn. split; [reflexivity|]. split; [reflexivity|].
        apply Hus. reflexivity.
      * intros e He. subst v0. destruct wu as [l|e']; [discriminate Hret|].
        exact (Hue e' eq_refl).
  - cbn [run] in Hrest. injection Hrest as <- <- <-. split; reflexivity.
Qed.

Lemma unenriched_zip_with_URL (files : list storage.FileInfo.t) (us : list string) :
  length us = length files ->
  map unenriched (zip_with storage.FileInfo.with_URL files us) = map unenriched files.
Proof.
  revert us. induction files as [|f rest IH]; intros [|u us] Hlen; try discriminate Hlen;
    [reflexivity|].
  cbn. f_equal. apply IH. injection Hlen as ->. reflexivity.
Qed.

Lemma unenriched_zip_with_tagged (files : list storage.FileInfo.t)
    (ts : list cosv5.ObjectGetTaggingResult.t) :
  length ts = length files ->
  map unenriched (zip_with tagged files ts) = map unenriched files.
Proof.
  revert ts. induction files as [|f rest IH]; intros [|t ts] Hlen; try discriminate Hlen;
    [reflexivity|].
  cbn. f_equal. apply IH. injection Hlen as ->. reflexivity.
Qed.

Lemma unenriched_page_files (res : cosv5.BucketGetResult.t) :
  map unenriched (page_files time_Parse res) = page_files time_Parse res.
Proof.
  unfold page_files. rewrite map_map. apply map_ext. intros obj. reflexivity.
Qed.




Lemma list_replies_app (t1 t2 : list Event) :
  list_replies (t1 ++ t2) = list_replies t1 ++ list_replies t2.
Proof. apply flat_map_app. Qed.


Lemma listed_files_app (t1 t2 : list Event) :
  listed_files time_Parse (t1 ++ t2)
  = listed_files time_Parse t1 ++ listed_files time_Parse t2.
Proof. unfold listed_files, reply_files. rewrite list_replies_app. apply flat_map_app. Qed.

Lemma list_replies_presign (tr : list Event) :
  forallb is_presign_event tr = true -> list_replies tr = [].
Proof.
  induction tr as [|ev tr IH]; [reflexivity|]. cbn [forallb].
  intros H. apply andb_true_iff in H as [Hev Htr].
  destruct ev; try discriminate Hev. cbn. apply IH, Htr.
Qed.


Lemma list_replies_tag_events (files : list storage.FileInfo.t)
    (ts : list cosv5.ObjectGetTaggingResult.t) :
  list_replies (zip_with tag_event files ts) = [].
Proof.
  revert ts. induction files as [|f rest IH]; intros [|t ts]; try reflexivity.
  cbn. apply IH.
Qed.


(** A page that is returned: one successful list exchange, whose entries
    without the folder markers are the files of the page, in order. *)
Lemma run_page_ok {W : Type} (r : Remote W) (c : cosClient)
    (input : storage.ListObjectsPaginatedInput.t) (opts : list storage.GetOptFn)
    (w w' : W) (out : storage.ListObjectsPaginatedOutput.t) (tr : list Event) :
  0 < storage.ListObjectsPaginatedInput.PageSize input ->
  run r (ListObjectsPaginated time_Parse c (Some input) opts) w = (Ok out, w', tr) ->
  exists res rest,
    tr = EvBucketGet
           {| cosv5.BucketGetOptions.Prefix := storage.ListObjectsPaginatedInput.Prefix input;
              cosv5.BucketGetOptions.Marker := storage.ListObjectsPaginatedInput.Cursor input;
              cosv5.BucketGetOptions.MaxKeys := storage.ListObjectsPaginatedInput.PageSize input |}
           (cosv5.Done res) :: rest
    /\ list_replies rest = []
    /\ map unenriched (storage.ListObjectsPaginatedOutput.Files out) = page_files time_Parse res
    /\ storage.ListObjectsPaginatedOutput.Cursor out = cosv5.BucketGetResult.NextMarker res
    /\ storage.ListObjectsPaginatedOutput.IsTruncated out
       = cosv5.BucketGetResult.IsTruncated res.
Proof.
  intros Hpos Hrun.
  destruct (run_page r c input opts w w' (Ok out) tr Hpos Hrun) as (x & rest & -> & Hx).
  destruct x as [res|err]; [|destruct Hx as [Hx _]; discriminate Hx].
  cbn zeta in Hx. destruct Hx as (tag_tr & url_tr & -> & Hpre & Hcases).
  exists res, (tag_tr ++ url_tr). split; [reflexivity|].
  destruct Hcases as [(ts & key & err & _ & Hv & _)|(files1 & Hfiles1 & Hout & _)];
    [discriminate Hv|].
  destruct (Hout out eq_refl) as (Hcur & Htrunc & us & Hlen & Hfiles).
  rewrite list_replies_app, (list_replies_presign _ Hpre), app_nil_r.
  rewrite Hfiles, (unenriched_zip_with_URL _ _ Hlen).
  destruct Hfiles1 as [(_ & -> & ->)|(_ & ts & Hts & -> & ->)].
  - repeat split; [apply unenriched_page_files|exact Hcur|exact Htrunc].
  - rewrite list_replies_tag_events, (unenriched_zip_with_tagged _ _ Hts).
    repeat split; [apply unenriched_page_files|exact Hcur|exact Htrunc].
Qed.


(** The loop of [ListAllObjects]: what it returns is what it started from
    followed by the files of every page it listed, in order. *)
Lemma run_ListAllObjects_loop {W : Type} (r : Remote W) (c : cosClient) (prefix : string)
    (opts : list storage.GetOptFn) (fuel : nat) :
  forall (files0 : list storage.FileInfo.t) (cursor : string) (w w' : W)
         (files : list storage.FileInfo.t) (tr : list Event),
    run r (ListAllObjects_loop time_Parse fuel c prefix opts files0 cursor) w
      = (Some (Ok files), w', tr) ->
    map unenriched files = map unenriched files0 ++ listed_files time_Parse tr.
Proof.
  induction fuel as [|fuel IH]; intros files0 cursor w w' files tr Hrun;
    [discriminate Hrun|].
  cbn [ListAllObjects_loop] in Hrun.
  apply run_bind_inv in Hrun as (page & w1 & t1 & t2 & Hpage & Hrest & ->).
  destruct page as [out|err]; [|discriminate Hrest].
  apply run_page_ok in Hpage as (res & rest & -> & Hnone & Hfiles & _ & _);
    [|reflexivity].
  assert (Hlisted : listed_files time_Parse (EvBucketGet
            {| cosv5.BucketGetOptions.Prefix := prefix;
               cosv5.BucketGetOptions.Marker := cursor;
               cosv5.BucketGetOptions.MaxKeys := defaultPageSize |} (cosv5.Done res) :: rest)
          = page_files time_Parse res).
  { unfold listed_files, reply_files. cbn [list_replies flat_map app]. fold (list_replies rest).
    rewrite Hnone. cbn. apply app_nil_r. }
  rewrite listed_files_app. cbn [storage.ListObjectsPaginatedInput.Prefix
    storage.ListObjectsPaginatedInput.Cursor storage.ListObjectsPaginatedInput.PageSize].
  rewrite Hlisted, <- Hfiles.
  destruct (Z.of_nat (length (files0 ++ storage.ListObjectsPaginatedOutput.Files out))
            >=? maxListObjects).
  { injection Hrest as <- <- <-. rewrite map_app, app_nil_r. reflexivity. }
  destruct (negb (storage.ListObjectsPaginatedOutput.IsTruncated out)
            || String.eqb (storage.ListObjectsPaginatedOutput.Cursor out) "").
  { injection Hrest as <- <- <-. rewrite map_app, app_nil_r. reflexivity. }
  apply IH in Hrest. rewrite Hrest, map_app, app_assoc. reflexivity.
Qed.

(** ** Folder markers *)


(** ** Tagging enrichment *)




(** ** The full drain and its cap *)






(** The list exchange of a page call that passed validation is its only
    one. *)
Lemma run_page_replies {W : Type} (r : Remote W) (c : cosClient)
    (input : storage.ListObjectsPaginatedInput.t) (opts : list storage.GetOptFn)
    (w w' : W) (v : result storage.ListObjectsPaginatedOutput.t) (tr : list Event) :
  0 < storage.ListObjectsPaginatedInput.PageSize input ->
  run r (ListObjectsPaginated time_Parse c (Some input) opts) w = (v, w', tr) ->
  exists opt x, list_replies tr = [(opt, x)].
Proof.
  intros Hpos Hrun.
  destruct (run_page r c input opts w w' v tr Hpos Hrun) as (x & rest & -> & Hx).
  eexists _, x. cbn [list_replies flat_map app]. fold (list_replies rest). f_equal.
  destruct x as [res|err]; [|destruct Hx as [_ ->]; reflexivity].
  cbn zeta in Hx. destruct Hx as (tag_tr & url_tr & -> & Hpre & Hcases).
  rewrite list_replies_app, (list_replies_presign _ Hpre), app_nil_r.
  destruct Hcases as [(ts & key & err & _ & _ & -> & _)|(files1 & Hfiles1 & _)].
  - rewrite list_replies_app, list_replies_tag_events. reflexivity.
  - destruct Hfiles1 as [(_ & _ & ->)|(_ & ts & _ & _ & ->)];
      [reflexivity|apply list_replies_tag_events].
Qed.



(** ** Put *)

(** C2 (amended). [PutObject] always hands the length of its payload to the
    SDK as content length, whatever object size the options of the caller
    supply: its own size option is applied last.  [PutObjectWithReader]
    hands over the object size its options leave when that is positive, so
    a size the caller supplies last is the one used, and leaves the content
    length unset (0) otherwise. *)
Theorem put_content_length :
  forall (c : cosClient) (objectKey content : string) (opts : list storage.PutOptFn),
    sent_ContentLength (PutObject time_Format MapToQuery c objectKey content opts)
      = Some (Z.of_nat (String.length content))
    /\ sent_ContentLength (PutObjectWithReader time_Format MapToQuery c objectKey content opts)
       = Some (if storage.PutOption.ObjectSize (apply_opts opts storage.PutOption.zero) >? 0
               then storage.PutOption.ObjectSize (apply_opts opts storage.PutOption.zero)
               else 0)
    /\ (forall size,
           0 < size ->
           sent_ContentLength
             (PutObjectWithReader time_Format MapToQuery c objectKey content
                (opts ++ [storage.WithObjectSize size]))
           = Some size).
Proof.
  intros c objectKey content opts. split; [|split].
  - unfold PutObject, PutObjectWithReader, sent_ContentLength.
    rewrite (apply_opts_app (O:=storage.PutOption.t) opts
               [storage.WithObjectSize (Z.of_nat (String.length content))]). cbn.
    destruct (Z.gtb_spec (Z.of_nat (String.length content)) 0) as [Hpos|Hzero];
      [reflexivity|].
    f_equal. lia.
  - reflexivity.
  - intros size Hsize. unfold PutObjectWithReader, sent_ContentLength.
    rewrite (apply_opts_app (O:=storage.PutOption.t) opts [storage.WithObjectSize size]). cbn.
    destruct (Z.gtb_spec size 0); [reflexivity|lia].
Qed.

(** ** Head: the response headers *)






(** ** Endpoint resolver *)

Lemma append_assoc (s t u : string) : (s +:+ t) +:+ u = s +:+ (t +:+ u).
Proof.
  induction s as [|c s IH]; [reflexivity|]. rewrite !append_cons, IH. reflexivity.
Qed.

Lemma HasPrefix_append (p s : string) : strings.HasPrefix (p +:+ s) p = true.
Proof.
  induction p as [|c p IH]; [destruct s; reflexivity|].
  rewrite append_cons. cbn [strings.HasPrefix]. rewrite Ascii.eqb_refl, IH. reflexivity.
Qed.



(** Bytes of an unreserved text. *)
Lemma unreserved_lacks (x : ascii) (s : string) :
  is_unreserved x = false -> all_unreserved s = true -> byte_among x s = false.
Proof.
  intros Hx. induction s as [|c s IH]; [reflexivity|].
  cbn [all_unreserved byte_among]. intros H. apply andb_true_iff in H as [Hc Hs].
  rewrite (IH Hs), orb_false_r. apply Ascii.eqb_neq. intros ->. congruence.
Qed.

Lemma Index_lacks (x : ascii) (s : string) :
  byte_among x s = false -> strings.Index s (String x "") = None.
Proof.
  induction s as [|c s IH]; [reflexivity|].
  cbn [byte_among strings.Index strings.HasPrefix]. intros H.
  apply orb_false_iff in H as [Hc Hs]. rewrite Ascii.eqb_sym, Hc, (IH Hs). reflexivity.
Qed.

Lemma LastIndex_lacks (x : ascii) (s : string) :
  byte_among x s = false -> strings.LastIndex s (String x "") = None.
Proof.
  induction s as [|c s IH]; [reflexivity|].
  cbn [byte_among strings.LastIndex strings.HasPrefix]. intros H.
  apply orb_false_iff in H as [Hc Hs]. rewrite Ascii.eqb_sym, Hc, (IH Hs). reflexivity.
Qed.

Lemma CountByte_lacks (x : ascii) (s : string) :
  byte_among x s = false -> strings.CountByte s x = O.
Proof.
  induction s as [|c s IH]; [reflexivity|].
  cbn [byte_among strings.CountByte]. intros H.
  apply orb_false_iff in H as [Hc Hs]. rewrite Ascii.eqb_sym, Hc, (IH Hs). reflexivity.
Qed.

Lemma unreserved_byte (c : ascii) :
  is_unreserved c = true ->
  Ascii.eqb c "%" = false /\ Ascii.eqb c "+" = false /\ Ascii.eqb c "[" = false
  /\ (N_of_ascii c <? 32)%N = false /\ (N_of_ascii c =? 127)%N = false
  /\ url.shouldEscape c url.encodeHost = false.
Proof.
  destruct c as [[] [] [] [] [] [] [] []]; intros H; vm_compute in H;
    try discriminate H; vm_compute; repeat split.
Qed.

Lemma unreserved_no_CTL (s : string) :
  all_unreserved s = true -> url.stringContainsCTLByte s = false.
Proof.
  induction s as [|c s IH]; [reflexivity|].
  cbn [all_unreserved url.stringContainsCTLByte]. intros H.
  apply andb_true_iff in H as [Hc Hs].
  destruct (unreserved_byte c Hc) as (_ & _ & _ & -> & -> & _). exact (IH Hs).
Qed.

Lemma unreserved_unescape_host (s : string) :
  all_unreserved s = true -> url.unescape s url.encodeHost = Ok s.
Proof.
  induction s as [|c s IH]; [reflexivity|].
  cbn [all_unreserved]. intros H. apply andb_true_iff in H as [Hc Hs].
  destruct (unreserved_byte c Hc) as (Hpct & Hplus & _ & _ & _ & Hesc).
  cbn [url.unescape]. rewrite Hpct, Hesc, Hplus, andb_false_r, (IH Hs). reflexivity.
Qed.

Lemma unreserved_no_bracket (s : string) :
  all_unreserved s = true -> strings.HasPrefix s "[" = false.
Proof.
  destruct s as [|c s]; [reflexivity|]. cbn [all_unreserved strings.HasPrefix].
  intros H. apply andb_true_iff in H as [Hc _].
  destruct (unreserved_byte c Hc) as (_ & _ & -> & _). reflexivity.
Qed.

Lemma all_unreserved_app (s t : string) :
  all_unreserved (s +:+ t) = all_unreserved s && all_unreserved t.
Proof.
  induction s as [|c s IH]; [reflexivity|].
  rewrite append_cons. cbn [all_unreserved]. rewrite IH. apply andb_assoc.
Qed.

Lemma parseHost_unreserved (host : string) :
  all_unreserved host = true -> url.parseHost host = Ok host.
Proof.
  intros H. unfold url.parseHost.
  rewrite (unreserved_no_bracket host H).
  rewrite (LastIndex_lacks ":" host (unreserved_lacks ":" host eq_refl H)).
  apply unreserved_unescape_host, H.
Qed.

Lemma byte_among_app (x : ascii) (s t : string) :
  byte_among x (s +:+ t) = byte_among x s || byte_among x t.
Proof.
  induction s as [|c s IH]; [reflexivity|].
  rewrite append_cons. cbn [byte_among]. rewrite IH. apply orb_assoc.
Qed.

Lemma stringContainsCTLByte_app (s t : string) :
  url.stringContainsCTLByte (s +:+ t)
  = url.stringContainsCTLByte s || url.stringContainsCTLByte t.
Proof.
  induction s as [|c s IH]; [reflexivity|].
  rewrite append_cons. cbn [url.stringContainsCTLByte]. rewrite IH, !orb_assoc. reflexivity.
Qed.

(** [url.Parse] on [https://] followed by an unreserved host. *)
Lemma Parse_https_unreserved (host : string) :
  all_unreserved host = true ->
  url.Parse ("https://" +:+ host)
  = Ok {| url.Scheme := "https"; url.Opaque := ""; url.User := None; url.Host := host;
          url.Path := ""; url.RawQuery := ""; url.Fragment := "" |}.
Proof.
  intros H.
  assert (Hlacks : forall x, is_unreserved x = false ->
                             byte_among x ("https://" +:+ host) = byte_among x "https://").
  { intros x Hx. rewrite byte_among_app, (unreserved_lacks x host Hx H). apply orb_false_r. }
  assert (Hhash : strings.Index ("https://" +:+ host) "#" = None)
    by (apply Index_lacks; rewrite Hlacks; reflexivity).
  assert (Hctl : url.stringContainsCTLByte ("https://" +:+ host) = false)
    by (rewrite stringContainsCTLByte_app, (unreserved_no_CTL host H); reflexivity).
  assert (Hscheme : url.getScheme ("https://" +:+ host)
                    = Ok ("https", String "/" (String "/" host))) by reflexivity.
  assert (Hrest : forall x, is_unreserved x = false ->
                            byte_among x (String "/" (String "/" host)) = byte_among x "//").
  { intros x Hx. change (String "/" (String "/" host)) with ("//" +:+ host).
    rewrite byte_among_app, (unreserved_lacks x host Hx H). apply orb_false_r. }
  assert (Hcount : strings.CountByte (String "/" (String "/" host)) "?" = O)
    by (apply CountByte_lacks; rewrite Hrest; reflexivity).
  assert (Hquery : strings.Index (String "/" (String "/" host)) "?" = None)
    by (apply Index_lacks; rewrite Hrest; reflexivity).
  pose proof (Index_lacks "/" host (unreserved_lacks "/" host eq_refl H)) as Hslash.
  pose proof (LastIndex_lacks "@" host (unreserved_lacks "@" host eq_refl H)) as Hat.
  unfold url.Parse, strings.Cut. rewrite Hhash. cbv beta iota.
  unfold url.parse. rewrite Hctl.
  change ("https://" +:+ host =? "")%string with false.
  change ("https://" +:+ host =? "*")%string with false.
  cbv beta iota. rewrite Hscheme. cbv beta iota.
  change (strings.ToLower "https") with "https".
  rewrite Hcount. change (0 =? 1)%nat with false. rewrite !andb_false_r.
  unfold strings.Cut. rewrite Hquery. cbv beta iota zeta.
  change (strings.HasPrefix (String "/" (String "/" host)) "/") with true.
  change (strings.HasPrefix (String "/" (String "/" host)) "//") with true.
  change ("https" =? "")%string with false.
  cbn [negb andb orb]. cbv beta iota.
  change (strings.drop 2 (String "/" (String "/" host))) with host.
  rewrite Hslash. cbv beta iota.
  unfold url.parseAuthority. rewrite Hat, (parseHost_unreserved host H).
  reflexivity.
Qed.

(** C7 (amended). Resolution fails for an empty bucket name and when both
    the endpoint and the region are empty.  With an empty endpoint, a
    non-empty bucket name and a non-empty region made of unreserved bytes
    (letters, digits, [-._~]) it succeeds with scheme https and service host
    [cos.<region>.myqcloud.com]; the bucket host is the bucket name and a
    dot in front of that service host, unless the service host already
    starts with them, in which case it is the service host itself. *)
Theorem default_endpoint_from_region :
  (forall endpoint region, exists err, buildBaseURL "" endpoint region = Err err)
  /\ (forall bucketName, exists err, buildBaseURL bucketName "" "" = Err err)
  /\ (forall bucketName region,
         bucketName <> "" -> region <> "" -> all_unreserved region = true ->
         exists base,
           buildBaseURL bucketName "" region = Ok base
           /\ url.Scheme (ServiceURL base) = "https"
           /\ url.Host (ServiceURL base) = "cos." +:+ region +:+ ".myqcloud.com"
           /\ url.Scheme (BucketURL base) = "https"
           /\ url.Host (BucketURL base)
              = bucket_host_spec bucketName ("cos." +:+ region +:+ ".myqcloud.com")
           /\ (strings.HasPrefix ("cos." +:+ region +:+ ".myqcloud.com")
                                 (bucketName +:+ ".") = false ->
               url.Host (BucketURL base)
               = bucketName +:+ ".cos." +:+ region +:+ ".myqcloud.com")).
Proof.
  split; [|split].
  - intros endpoint region. eexists. reflexivity.
  - intros bucketName. unfold buildBaseURL.
    destruct (String.eqb bucketName ""); eexists; reflexivity.
  - intros bucketName region Hbucket Hregion Hsafe. unfold buildBaseURL.
    destruct (String.eqb_spec bucketName ""); [contradiction|].
    destruct (String.eqb_spec region ""); [contradiction|].
    change (String.eqb "" "") with true. cbn [andb]. cbv beta iota zeta.
    change (strings.HasPrefix ("https://cos." +:+ region +:+ ".myqcloud.com") "http://")
      with false.
    change (strings.HasPrefix ("https://cos." +:+ region +:+ ".myqcloud.com") "https://")
      with true.
    cbn [negb andb]. cbv beta iota.
    change ("https://cos." +:+ region +:+ ".myqcloud.com")
      with ("https://" +:+ region_host region).
    rewrite Parse_https_unreserved.
    2:{ unfold region_host. rewrite !all_unreserved_app, Hsafe. reflexivity. }
    eexists. split; [reflexivity|]. cbn [ServiceURL BucketURL url.Scheme url.Host].
    fold (region_host region). unfold bucket_host_spec.
    repeat split.
    + destruct (strings.HasPrefix (region_host region) (bucketName +:+ ".")); reflexivity.
    + intros ->. reflexivity.
Qed.



End Properties.

(** * Worked examples *)

(** ** Input validation (C5) *)

Lemma ListObjectsPaginated_validates_input_example :
  run (small_remote false)
      (ListObjectsPaginated sample_time_Parse sample_client (Some (page_input 0)) []) tt
    = (Err (errorString "page size must be positive"), tt, [])
  /\ exists reply rest,
       trace (run (small_remote false)
                  (ListObjectsPaginated sample_time_Parse sample_client
                     (Some (page_input 10)) []) tt)
       = EvBucketGet {| cosv5.BucketGetOptions.Prefix := "";
                        cosv5.BucketGetOptions.Marker := "";
                        cosv5.BucketGetOptions.MaxKeys := 10 |} reply :: rest.
Proof.
  destruct (ListObjectsPaginated_validates_input sample_time_Parse unit
              (small_remote false) tt sample_client []) as (_ & Hbad & Hgood).
  split.
  - apply (Hbad (page_input 0)). simpl. lia.
  - apply (Hgood (page_input 10)). simpl. lia.
Defined.

(** ** Head of a missing object (C6) *)

Lemma HeadObject_maps_not_found_example :
  run (small_remote false) (HeadObject sample_time_Parse sample_client "missing" []) tt
    = (Err ErrObjectNotFound, tt,
       [EvObjectHead "missing" (cosv5.Failed (ErrorResponse 404 "NoSuchKey" ""))])
  /\ run (small_remote false) (HeadObject sample_time_Parse sample_client "denied" []) tt
     = (Err (sdkError (ErrorResponse 403 "AccessDenied" "")), tt,
        [EvObjectHead "denied" (cosv5.Failed (ErrorResponse 403 "AccessDenied" ""))]).
Proof.
  split.
  - apply (HeadObject_maps_not_found sample_time_Parse unit (small_remote false) tt tt
             sample_client "missing" [] (ErrorResponse 404 "NoSuchKey" "")); reflexivity.
  - apply (HeadObject_maps_not_found sample_time_Parse unit (small_remote false) tt tt
             sample_client "denied" [] (ErrorResponse 403 "AccessDenied" "")); reflexivity.
Defined.

(** ** The HTTP date of cos_test.go (C9) *)

Lemma parseCosTime_first_layout_wins_example :
  parseCosTime sample_time_Parse "Wed, 02 Oct 2002 08:00:00 GMT"
    = {| time.sec := 63169142400; time.nsec := 0 |}
  /\ parseCosTime sample_time_Parse "2025-01-02T03:04:05.000Z"
     = {| time.sec := 63871383845; time.nsec := 0 |}
  /\ parseCosTime sample_time_Parse "not a time" = time.zero.
Proof.
  split; [|split].
  - destruct (parseCosTime_first_layout_wins sample_time_Parse "Wed, 02 Oct 2002 08:00:00 GMT")
      as (_ & _ & Hfirst & _).
    apply (Hfirst [sample_time_Parse time.RFC3339; sample_time_Parse time.RFC3339Nano;
                   sample_time_Parse "2006-01-02T15:04:05.000Z"]
                  (fun v => match http_ParseTime sample_time_Parse v with
                            | (t, true) => Some t
                            | (_, false) => None
                            end)
                  []).
    + discriminate.
    + reflexivity.
    + repeat constructor.
    + reflexivity.
  - destruct (parseCosTime_first_layout_wins sample_time_Parse "2025-01-02T03:04:05.000Z")
      as (_ & _ & Hfirst & _).
    apply (Hfirst [] (sample_time_Parse time.RFC3339) (tl (cos_parsers sample_time_Parse))).
    + discriminate.
    + reflexivity.
    + constructor.
    + reflexivity.
  - destruct (parseCosTime_first_layout_wins sample_time_Parse "not a time")
      as (_ & _ & _ & Hnone).
    apply Hnone. repeat constructor.
Defined.

(** ** Bucket hosts (C7, C8) *)


Lemma default_endpoint_from_region_example :
  exists base,
    buildBaseURL "demo-bucket" "" "ap-shanghai" = Ok base
    /\ url.Scheme (ServiceURL base) = "https"
    /\ url.Host (ServiceURL base) = "cos.ap-shanghai.myqcloud.com"
    /\ url.Host (BucketURL base) = "demo-bucket.cos.ap-shanghai.myqcloud.com".
Proof.
  destruct default_endpoint_from_region as (_ & _ & Hregion).
  destruct (Hregion "demo-bucket" "ap-shanghai") as (base & Hbuild & Hscheme & Hhost & _ & _ & Hbucket).
  - discriminate.
  - discriminate.
  - vm_compute. reflexivity.
  - exists base. split; [exact Hbuild|]. split; [exact Hscheme|]. split; [exact Hhost|].
    apply Hbucket. vm_compute. reflexivity.
Defined.

(** A bucket named like the first label of the service host gets no label
    of its own, and a region with a slash moves the rest of the name into the
    path: the hosts are not the ones of the pattern. *)
Lemma default_endpoint_pattern_fails :
  ~ (forall bucketName region,
        bucketName <> "" -> region <> "" ->
        exists base,
          buildBaseURL bucketName "" region = Ok base
          /\ url.Scheme (ServiceURL base) = "https"
          /\ url.Host (ServiceURL base) = "cos." +:+ region +:+ ".myqcloud.com"
          /\ url.Host (BucketURL base)
             = bucketName +:+ ".cos." +:+ region +:+ ".myqcloud.com").
Proof.
  intros Hclaim.
  destruct (Hclaim "cos" "ap-beijing") as (base & Hbuild & _ & _ & Hbucket);
    [discriminate|discriminate|].
  vm_compute in Hbuild. injection Hbuild as <-. vm_compute in Hbucket. discriminate Hbucket.
Qed.

Example default_endpoint_same_label :
  option_map (fun base => url.Host (BucketURL base))
             (match buildBaseURL "cos" "" "ap-beijing" with Ok b => Some b | Err _ => None end)
  = Some "cos.ap-beijing.myqcloud.com".
Proof. vm_compute. reflexivity. Qed.

Example default_endpoint_region_with_slash :
  option_map (fun base => url.Host (ServiceURL base))
             (match buildBaseURL "demo-bucket" "" "a/b" with Ok b => Some b | Err _ => None end)
  = Some "cos.a".
Proof. vm_compute. reflexivity. Qed.

Example default_endpoint_region_with_space :
  buildBaseURL "demo-bucket" "" "a b"
  = Err (wrapError "parse cos endpoint failed: "
           (url_Error "parse" "https://cos.a b.myqcloud.com" (InvalidHostError " "))).
Proof. vm_compute. reflexivity. Qed.

(** The endpoints of cos_test.go. *)
Example TestBuildBaseURL :
  (exists base, buildBaseURL "demo-bucket" "https://cos.ap-beijing.myqcloud.com" "" = Ok base
                /\ url.Host (ServiceURL base) = "cos.ap-beijing.myqcloud.com"
                /\ url.Host (BucketURL base) = "demo-bucket.cos.ap-beijing.myqcloud.com")
  /\ (exists base, buildBaseURL "demo-bucket" "cos.ap-singapore.myqcloud.com" "" = Ok base
                   /\ url.Scheme (ServiceURL base) = "https"
                   /\ url.Host (BucketURL base) = "demo-bucket.cos.ap-singapore.myqcloud.com")
  /\ (exists base, buildBaseURL "demo-bucket" "" "ap-shanghai" = Ok base
                   /\ url.Host (ServiceURL base) = "cos.ap-shanghai.myqcloud.com").
Proof. repeat split; eexists; (split; [vm_compute; reflexivity|]); repeat split. Qed.

(** ** Pages, folder markers and tags (C3, C4) *)


Example ListObjectsPaginated_skips_folder :
  value (run (small_remote false)
             (ListObjectsPaginated sample_time_Parse sample_client (Some (page_input 10)) []) tt)
  = Ok {| storage.ListObjectsPaginatedOutput.Files := sample_files;
          storage.ListObjectsPaginatedOutput.Cursor := "";
          storage.ListObjectsPaginatedOutput.IsTruncated := false |}.
Proof. vm_compute. reflexivity. Qed.


Example tagged_page :
  match value (run (small_remote false)
                   (ListObjectsPaginated sample_time_Parse sample_client
                      (Some (page_input 10)) [storage.WithTagging true]) tt) with
  | Ok out =>
      map (fun f => (storage.FileInfo.Key f,
                     storage.FileInfo.Tagging f
                       ≫= (fun m : gmap string string => m !! "k1")))
          (storage.ListObjectsPaginatedOutput.Files out)
  | Err _ => []
  end = [("a.txt", Some "v1"); ("b.txt", Some "v1")].
Proof. vm_compute. reflexivity. Qed.

(** ** The cap of the full drain (C1) *)






(** ** Content length of a put (C2) *)

Lemma put_content_length_example :
  sent_ContentLength
    (PutObjectWithReader sample_time_Format sample_MapToQuery sample_client "k" "abc"
       ([] ++ [storage.WithObjectSize 10]))
  = Some 10.
Proof.
  destruct (put_content_length sample_time_Format sample_MapToQuery sample_client "k" "abc" [])
    as (_ & _ & Hsupplied).
  apply Hsupplied. lia.
Defined.

Lemma PutObject_overrides_supplied_size :
  ~ (forall (time_Format : time.Time -> string -> string)
            (MapToQuery : gmap string string -> string) (c : cosClient)
            (objectKey content : string) (opts : list storage.PutOptFn) (size : Z),
        0 < size ->
        sent_ContentLength
          (PutObject time_Format MapToQuery c objectKey content
             (opts ++ [storage.WithObjectSize size]))
        = Some size).
Proof.
  intros Hclaim.
  specialize (Hclaim sample_time_Format sample_MapToQuery sample_client "k" "abc" [] 10).
  vm_compute in Hclaim. discriminate (Hclaim eq_refl).
Qed.

Example PutObject_sends_payload_length :
  sent_ContentLength
    (PutObject sample_time_Format sample_MapToQuery sample_client "k" "abc"
       [storage.WithObjectSize 10])
  = Some 3.
Proof. reflexivity. Qed.

(** ** Headers of a head reply (C10) *)



Example HeadObject_garbled :
  value (run (small_remote false) (HeadObject sample_time_Parse sample_client "garbled" []) tt)
  = Ok {| storage.FileInfo.Key := "garbled"; storage.FileInfo.LastModified := time.zero;
          storage.FileInfo.ETag := "abc"; storage.FileInfo.Size := 9223372036854775807;
          storage.FileInfo.URL := ""; storage.FileInfo.Tagging := None |}.
Proof. vm_compute. reflexivity. Qed.

(** The timestamps of cos_test.go. *)
Example TestParseCosTime :
  time.IsZero (parseCosTime sample_time_Parse "2025-01-02T03:04:05.000Z") = false
  /\ time.IsZero (parseCosTime sample_time_Parse "Wed, 02 Oct 2002 08:00:00 GMT") = false
  /\ time.IsZero (parseCosTime sample_time_Parse "") = true.
Proof. repeat split. Qed.

(** The tags of cos_test.go. *)
Example TestCosTagsToMap :
  let tags := [ {| cosv5.ObjectTaggingTag.Key := "k1"; cosv5.ObjectTaggingTag.Value := "v1" |};
                {| cosv5.ObjectTaggingTag.Key := "k2"; cosv5.ObjectTaggingTag.Value := "v2" |} ] in
  match cosTagsToMap tags with
  | Some m => size m = 2%nat /\ m !! "k1" = Some "v1" /\ m !! "k2" = Some "v2"
  | None => False
  end.
Proof. vm_compute. repeat split. Qed.

(** ** The failures do not hinge on the sample collaborators *)

(** Whatever [time.Parse] does, the drain against [endless_remote] returns
    10098 files. *)
Lemma ListAllObjects_endless_count_any_parser
    (time_Parse : string -> string -> option time.Time) :
  returned_count
    (value (run endless_remote (ListAllObjects time_Parse 102 sample_client "" []) tt))
  = Some 10098.
Proof. vm_compute. reflexivity. Qed.

(** Whatever [time.Parse] does, the head of [garbled] has the size the
    digits were clamped to. *)
Lemma HeadObject_garbled_any_parser (time_Parse : string -> string -> option time.Time) :
  match value (run (small_remote false) (HeadObject time_Parse sample_client "garbled" []) tt) with
  | Ok fileInfo => storage.FileInfo.Size fileInfo
  | Err _ => 0
  end = 9223372036854775807.
Proof. vm_compute. reflexivity. Qed.

(** Whatever the formatting of the expiry and the encoding of the tags, the
    put of three bytes announces three bytes. *)
Lemma PutObject_sends_payload_length_any_encoding
    (time_Format : time.Time -> string -> string)
    (MapToQuery : gmap string string -> string) :
  sent_ContentLength
    (PutObject time_Format MapToQuery sample_client "k" "abc" [storage.WithObjectSize 10])
  = Some 3.
Proof. reflexivity. Qed.

(** * Further properties *)

(** ** Bucket bootstrap *)

(** X1 (CheckAndCreateBucket): the bucket check makes one existence call and
    at most one create call after it.  A create is sent exactly when the
    service answered that the bucket does not exist, and it asks for the
    [private] ACL.  The method returns nil exactly when no call failed; the
    error of a failed call is returned wrapped, with the prefix that tells
    the step. *)
Theorem CheckAndCreateBucket_creates_only_missing {W : Type}
    (s : Store W) (c : cosClient) (w : W) :
  let '(err, w', tr) := CheckAndCreateBucket s c w in
  (exists x, tr = [EvBucketIsExist x]
             \/ exists r, x = cosv5.Done false
                          /\ tr = [EvBucketIsExist x;
                                   EvBucketPut {| BucketPutOptions.XCosACL := "private" |} r])
  /\ (existsb is_bucket_put tr = true <-> fst (bucket_is_exist s w) = cosv5.Done false)
  /\ (err = None <-> existsb failed_store_event tr = false)
  /\ match err with
     | None => True
     | Some e =>
         exists x,
           (e = wrapError "check bucket failed: " (sdkError x)
            /\ last tr = Some (EvBucketIsExist (cosv5.Failed x)))
           \/ (e = wrapError "create bucket failed: " (sdkError x)
               /\ last tr = Some (EvBucketPut {| BucketPutOptions.XCosACL := "private" |}
                                    (cosv5.Failed x)))
     end.
Proof.
  unfold CheckAndCreateBucket.
  destruct (bucket_is_exist s w) as [x w1] eqn:Hexist.
  destruct x as [[|]|e]; simpl.
  - split; [exists (cosv5.Done true); left; reflexivity|].
    repeat split; trivial; discriminate.
  - destruct (bucket_put s _ w1) as [r w2].
    destruct r as [u|e]; simpl.
    + split; [exists (cosv5.Done false); right; exists (cosv5.Done u);
              split; reflexivity|].
      repeat split; trivial; discriminate.
    + split; [exists (cosv5.Done false); right; exists (cosv5.Failed e);
              split; reflexivity|].
      split; [split; reflexivity|].
      split; [split; discriminate|].
      exists e. right. split; reflexivity.
  - split; [exists (cosv5.Failed e); left; reflexivity|].
    split; [split; discriminate|].
    split; [split; discriminate|].
    exists e. left. split; reflexivity.
Qed.

(** X2 (getCosClient, New, NewStorageImagex): a client is handed out only
    for a configuration the endpoint resolver accepts and after a bucket check
    in which no call failed; it carries the bucket name and the two secrets it
    was built from, and its SDK client the resolved URLs.  A configuration the
    resolver rejects fails with the error of the resolver before any call to
    the service; any other error is the wrapped error of the bucket check.
    The two constructors return what [getCosClient] returns. *)
Theorem getCosClient_outcome {W : Type} (s : Store W)
    (sid sk b endpoint region : string) (w : W) :
  (let '(res, w', tr) := getCosClient s sid sk b endpoint region w in
   match res with
   | Ok (client, c) =>
       buildBaseURL b endpoint region = Ok (clientBaseURL client)
       /\ transportSecretID client = sid /\ transportSecretKey client = sk
       /\ c = {| bucketName := b; secretID := sid; secretKey := sk |}
       /\ tr <> [] /\ existsb failed_store_event tr = false
   | Err err =>
       (buildBaseURL b endpoint region = Err err /\ tr = [] /\ w' = w)
       \/ (exists base p x,
             buildBaseURL b endpoint region = Ok base
             /\ err = wrapError p (sdkError x)
             /\ existsb failed_store_event tr = true)
   end)
  /\ New s sid sk b endpoint region w = getCosClient s sid sk b endpoint region w
  /\ NewStorageImagex s sid sk b endpoint region w
     = getCosClient s sid sk b endpoint region w.
Proof.
  split.
  - unfold getCosClient.
    destruct (buildBaseURL b endpoint region) as [base|err] eqn:Hbase.
    + set (c := {| bucketName := b; secretID := sid; secretKey := sk |}).
      unfold CheckAndCreateBucket.
      destruct (bucket_is_exist s w) as [x w1].
      destruct x as [[|]|e]; simpl.
      * repeat split; discriminate.
      * destruct (bucket_put s _ w1) as [r w2].
        destruct r as [u|e]; simpl.
        -- repeat split; discriminate.
        -- right. eauto 8.
      * right. eauto 8.
    + left. auto.
  - unfold New, NewStorageImagex.
    destruct (getCosClient s sid sk b endpoint region w) as [[res w'] tr].
    destruct res; auto.
Qed.

(** X3 (getCosClient, buildBaseURL): without a bucket name, or with neither
    an endpoint nor a region, the construction fails and the service is not
    called. *)
Theorem getCosClient_incomplete_config {W : Type} (s : Store W)
    (sid sk b endpoint region : string) (w : W) :
  b = "" \/ (endpoint = "" /\ region = "") ->
  exists msg,
    getCosClient s sid sk b endpoint region w = (Err (errorString msg), w, []).
Proof.
  intros H. unfold getCosClient, buildBaseURL.
  destruct (String.eqb_spec b "") as [Hb|Hb].
  - eauto.
  - destruct H as [H|[He Hr]]; [contradiction|]. subst. simpl. eauto.
Qed.

Lemma getCosClient_incomplete_config_example :
  exists msg,
    getCosClient (sample_store false) "id" "key" "bkt" "" "" false
    = (Err (errorString msg), false, []).
Proof.
  apply (getCosClient_incomplete_config (sample_store false) "id" "key" "bkt" "" "" false).
  right. split; reflexivity.
Defined.

(** ** Get and delete *)

(** X4 (GetObject): a get is one call for the key.  The bytes are returned
    exactly when the call succeeded and the body was read to its end; a failed
    call, or a read that broke off, gives that error as it is, neither wrapped
    nor turned into [ErrObjectNotFound], and no bytes. *)
Theorem GetObject_one_call {W : Type} (s : Store W) (c : cosClient)
    (key : string) (w : W) :
  let '(res, w', tr) := GetObject s c key w in
  let '(resp, w1) := object_get s key w in
  tr = [EvObjectGet key resp] /\ w' = w1
  /\ (forall data,
        res = Ok data
        <-> exists body, resp = cosv5.Done body /\ body_err body = None
                         /\ body_data body = data)
  /\ (forall err,
        res = Err err
        <-> exists x, err = sdkError x
                      /\ (resp = cosv5.Failed x
                          \/ exists body, resp = cosv5.Done body
                                          /\ body_err body = Some x)).
Proof.
  unfold GetObject.
  destruct (object_get s key w) as [resp w1].
  destruct resp as [body|x]; simpl.
  - destruct (body_err body) as [x|] eqn:Hbody; repeat split; try reflexivity.
    + discriminate.
    + intros (body' & Hdone & Hnone & _). injection Hdone as <-. congruence.
    + intros H. injection H as <-. eauto 6.
    + intros (x' & -> & [H|(body' & Hdone & Hsome)]); [discriminate|].
      injection Hdone as <-. congruence.
    + intros H. injection H as <-. eauto.
    + intros (body' & Hdone & _ & Hdata). injection Hdone as <-. congruence.
    + discriminate.
    + intros (x' & -> & [H|(body' & Hdone & Hsome)]); [discriminate|].
      injection Hdone as <-. congruence.
  - repeat split; try reflexivity.
    + discriminate.
    + intros (body' & Hdone & _). discriminate.
    + intros H. injection H as <-. eauto.
    + intros (x' & -> & [H|(body' & Hdone & _)]); [|discriminate].
      injection H as <-. reflexivity.
Qed.

(** X5 (DeleteObject): a delete is one call for the key, and what it
    returns is the error of that call, unchanged: nil when the service
    accepted the delete. *)
Theorem DeleteObject_one_call {W : Type} (s : Store W) (c : cosClient)
    (key : string) (w : W) :
  let '(err, w', tr) := DeleteObject s c key w in
  let '(resp, w1) := object_delete s key w in
  tr = [EvObjectDelete key resp] /\ w' = w1
  /\ (err = None <-> existsb failed_store_event tr = false)
  /\ (forall x, err = Some (sdkError x) <-> resp = cosv5.Failed x).
Proof.
  unfold DeleteObject.
  destruct (object_delete s key w) as [resp w1].
  destruct resp as [u|x]; simpl; repeat split; try reflexivity; try discriminate.
  - intros H. injection H as <-. reflexivity.
  - intros H. injection H as <-. reflexivity.
Qed.

(** ** Presigned URLs *)

Lemma int64_id (z : Z) : - 2 ^ 63 <= z < 2 ^ 63 -> int64 z = z.
Proof.
  intros H. unfold int64.
  rewrite Z.mod_small by lia. lia.
Qed.

Lemma int64_range (z : Z) : - 2 ^ 63 <= int64 z < 2 ^ 63.
Proof.
  unfold int64.
  pose proof (Z.mod_pos_bound (z + 2 ^ 63) (2 ^ 64) ltac:(lia)). lia.
Qed.

(** X6 (GetObjectUrl): a presign is one GET presign call for the key with
    the two secrets of the client, and its outcome is the outcome of that
    call, the error unchanged.  The lifetime asked for is a week when the
    option gives no positive expiry.  A positive expiry of at most
    9223372036 seconds is asked for as it is, in nanoseconds; past that the
    conversion to a duration overflows and another lifetime is asked for. *)
Theorem GetObjectUrl_lifetime {W : Type} (r : Remote W) (c : cosClient)
    (key : string) (opts : list storage.GetOptFn) (w : W) :
  let e := storage.GetOption.Expire (apply_opts opts storage.GetOption.zero) in
  exists d,
    (let '(x, w1) := presigned_url r "GET" key (secretID c) (secretKey c) d w in
     run r (GetObjectUrl c key opts) w
     = (match x with
        | cosv5.Done u => Ok u
        | cosv5.Failed err => Err (sdkError err)
        end, w1, [EvGetPresignedURL "GET" key (secretID c) (secretKey c) d x]))
    /\ (e <= 0 -> d = 604800 * 1000000000)
    /\ (0 < e -> (d = e * 1000000000 <-> e <= 9223372036)).
Proof.
  intros e. unfold GetObjectUrl. fold e.
  set (e' := if e >? 0 then e else 7 * 24 * 60 * 60).
  exists (int64 (e' * time.Second)). split; [|split].
  - simpl. unfold http.MethodGet.
    destruct (presigned_url r "GET" key (secretID c) (secretKey c) _ w) as [x w1].
    destruct x; reflexivity.
  - intros He. unfold e'.
    destruct (Z.gtb_spec e 0) as [H|H]; [lia|]. reflexivity.
  - intros He. unfold e'.
    destruct (Z.gtb_spec e 0) as [H|H]; [|lia].
    unfold time.Second. split.
    + intros Hd. pose proof (int64_range (e * 1000000000)) as Hr.
      rewrite Hd in Hr. lia.
    + intros Hle. apply int64_id. lia.
Qed.

(** X7 (GetResourceURL): the resource URL of a key is the presigned URL of
    one GET presign call for it with the secrets of the client and a lifetime
    of a week, whatever options are handed in; a failed call gives its error
    unchanged and no URL. *)
Theorem GetResourceURL_presigns_for_a_week {W O : Type} (r : Remote W) (c : cosClient)
    (uri : string) (opts : list O) (w : W) :
  let '(x, w1) := presigned_url r "GET" uri (secretID c) (secretKey c)
                    604800000000000 w in
  run r (GetResourceURL c uri opts) w
  = (match x with
     | cosv5.Done u => Ok {| imagex.URL := u |}
     | cosv5.Failed err => Err (sdkError err)
     end, w1,
     [EvGetPresignedURL "GET" uri (secretID c) (secretKey c) 604800000000000 x]).
Proof.
  unfold GetResourceURL, GetObjectUrl. simpl.
  change (int64 (7 * 24 * 60 * 60 * time.Second)) with 604800000000000.
  unfold http.MethodGet.
  destruct (presigned_url r "GET" uri (secretID c) (secretKey c) 604800000000000 w)
    as [x w1].
  destruct x; reflexivity.
Qed.

(** ** Upload token *)





(** ** Tags *)

Lemma fold_insert_lookup (tags : list cosv5.ObjectTaggingTag.t)
    (m : gmap string string) (k : string) :
  fold_left
    (fun m tag => <[cosv5.ObjectTaggingTag.Key tag := cosv5.ObjectTaggingTag.Value tag]> m)
    tags m !! k
  = match last_tag_value k tags with
    | Some v => Some v
    | None => m !! k
    end.
Proof.
  revert m. induction tags as [|tag tags IH]; intros m; simpl; [reflexivity|].
  rewrite IH.
  destruct (last_tag_value k tags) as [v|]; [reflexivity|].
  destruct (String.eqb_spec (cosv5.ObjectTaggingTag.Key tag) k) as [H|H].
  - rewrite H. apply lookup_insert_eq.
  - apply lookup_insert_ne. exact H.
Qed.

(** X9 (cosTagsToMap): the tag map is nil exactly for an empty tag list.
    Otherwise a key of it is looked up to the value of the last tag of the
    list with that key, and is absent when the list has no such tag. *)
Theorem cosTagsToMap_last_tag_wins (tags : list cosv5.ObjectTaggingTag.t) :
  (cosTagsToMap tags = None <-> tags = [])
  /\ (forall m k, cosTagsToMap tags = Some m -> m !! k = last_tag_value k tags).
Proof.
  unfold cosTagsToMap. split.
  - destruct tags; simpl; split; intros H; try reflexivity; discriminate.
  - intros m k H. destruct tags as [|tag tags]; [discriminate|].
    cbn [length Nat.eqb] in H. injection H as <-.
    transitivity (match last_tag_value k (tag :: tags) with
                  | Some v => Some v
                  | None => (∅ : gmap string string) !! k
                  end).
    { exact (fold_insert_lookup (tag :: tags) ∅ k). }
    destruct (last_tag_value k (tag :: tags)); [reflexivity|].
    apply lookup_empty.
Qed.

(** ** Surrounding quotes of an ETag *)

Lemma last_byte_cons (c : ascii) (s : string) : exists d, last_byte (String c s) = Some d.
Proof.
  simpl. destruct (last_byte s); eauto.
Qed.

Lemma TrimLeft_first (s cutset : string) (c : ascii) :
  first_byte (strings.TrimLeft s cutset) = Some c -> byte_among c cutset = false.
Proof.
  induction s as [|d s IH]; simpl; [discriminate|].
  destruct (byte_among d cutset) eqn:Hd; [exact IH|].
  simpl. intros H. injection H as <-. exact Hd.
Qed.

Lemma TrimRight_first (s cutset : string) (c : ascii) :
  first_byte (strings.TrimRight s cutset) = Some c -> first_byte s = Some c.
Proof.
  destruct s as [|d s]; simpl; [discriminate|].
  destruct (strings.TrimRight s cutset); [|exact (fun H => H)].
  destruct (byte_among d cutset); [discriminate|exact (fun H => H)].
Qed.

Lemma TrimRight_last (s cutset : string) (c : ascii) :
  last_byte (strings.TrimRight s cutset) = Some c -> byte_among c cutset = false.
Proof.
  induction s as [|d s IH]; simpl; [discriminate|].
  destruct (strings.TrimRight s cutset) as [|e t].
  - destruct (byte_among d cutset) eqn:Hd; [discriminate|].
    simpl. intros H. injection H as <-. exact Hd.
  - change (last_byte (String d (String e t)))
      with (match last_byte (String e t) with Some x => Some x | None => Some d end).
    destruct (last_byte_cons e t) as [x Hx]. rewrite Hx in *. exact IH.
Qed.

Lemma Trim_ends (s cutset : string) :
  (forall c, first_byte (strings.Trim s cutset) = Some c -> byte_among c cutset = false)
  /\ (forall c, last_byte (strings.Trim s cutset) = Some c -> byte_among c cutset = false).
Proof.
  unfold strings.Trim. split; intros c H.
  - apply TrimRight_first in H. exact (TrimLeft_first _ _ _ H).
  - exact (TrimRight_last _ _ _ H).
Qed.

Lemma Trim_unquoted (s : string) : unquoted (strings.Trim s (String quote "")).
Proof.
  destruct (Trim_ends s (String quote "")) as [Hfirst Hlast].
  split; intros H; [apply Hfirst in H|apply Hlast in H]; discriminate H.
Qed.

Lemma TrimLeft_id (s cutset : string) :
  (forall c, first_byte s = Some c -> byte_among c cutset = false) ->
  strings.TrimLeft s cutset = s.
Proof.
  destruct s as [|d s]; simpl; [reflexivity|].
  intros H. rewrite (H d eq_refl). reflexivity.
Qed.

Lemma TrimRight_id (s cutset : string) :
  (forall c, last_byte s = Some c -> byte_among c cutset = false) ->
  strings.TrimRight s cutset = s.
Proof.
  induction s as [|d s IH]; simpl; [reflexivity|].
  intros H. destruct (last_byte s) as [x|] eqn:Hlast.
  - rewrite IH by exact H. destruct s; [discriminate Hlast|reflexivity].
  - destruct s as [|e s].
    + simpl. rewrite (H d eq_refl). reflexivity.
    + destruct (last_byte_cons e s) as [x Hx]. congruence.
Qed.

Lemma TrimRight_snoc (s cutset : string) (q : ascii) :
  byte_among q cutset = true ->
  strings.TrimRight (s +:+ String q "") cutset = strings.TrimRight s cutset.
Proof.
  intros Hq. induction s as [|d s IH].
  - rewrite append_nil_l. simpl. rewrite Hq. reflexivity.
  - rewrite append_cons. simpl. rewrite IH. reflexivity.
Qed.

Lemma Trim_strips (s : string) :
  unquoted s ->
  strings.Trim s (String quote "") = s
  /\ strings.Trim (String quote (s +:+ String quote "")) (String quote "") = s.
Proof.
  intros [Hfirst Hlast].
  assert (Hl : strings.TrimLeft s (String quote "") = s).
  { apply TrimLeft_id. intros c Hc. simpl. rewrite orb_false_r.
    apply Ascii.eqb_neq. intros ->. exact (Hfirst Hc). }
  assert (Hr : strings.TrimRight s (String quote "") = s).
  { apply TrimRight_id. intros c Hc. simpl. rewrite orb_false_r.
    apply Ascii.eqb_neq. intros ->. exact (Hlast Hc). }
  unfold strings.Trim. split.
  - rewrite Hl. exact Hr.
  - change (strings.TrimLeft (String quote (s +:+ String quote "")) (String quote ""))
      with (strings.TrimLeft (s +:+ String quote "") (String quote "")).
    destruct s as [|d s].
    + reflexivity.
    + rewrite append_cons in *.
      rewrite TrimLeft_id.
      * rewrite <- append_cons. rewrite TrimRight_snoc by reflexivity. exact Hr.
      * intros c Hc. simpl in Hc. injection Hc as <-. simpl. rewrite orb_false_r.
        apply Ascii.eqb_neq. intros ->. apply Hfirst. reflexivity.
Qed.

Section MoreProperties.

Variable time_Parse : string -> string -> option time.Time.
Variable time_Format : time.Time -> string -> string.
Variable MapToQuery : gmap string string -> string.

(** ** Head: the calls and what they fill in *)

(** X10 (HeadObject): a head makes at most three calls, in this order: the
    head of the key; the tag fetch of the key, only with the tagging option;
    one GET presign of the key with the secrets of the client, only with the
    URL option.  The file returned has the key asked for and the ETag header
    without surrounding quotes; its tags are those of the tag reply and its
    URL that of the presign reply, and they are nil and empty when the option
    did not ask for them. *)
Theorem HeadObject_exchanges {W : Type} (r : Remote W) (c : cosClient) (key : string)
    (opts : list storage.GetOptFn) (w w' : W) (v : result storage.FileInfo.t)
    (tr : list Event) :
  run r (HeadObject time_Parse c key opts) w = (v, w', tr) ->
  let opt := apply_opts opts storage.GetOption.zero in
  exists x tag_tr url_tr,
    tr = EvObjectHead key x :: tag_tr ++ url_tr
    /\ (tag_tr = []
        \/ storage.GetOption.WithTagging opt = true
           /\ exists t, tag_tr = [EvObjectGetTagging key t])
    /\ (url_tr = []
        \/ storage.GetOption.WithURL opt = true
           /\ exists d u, url_tr = [EvGetPresignedURL "GET" key (secretID c) (secretKey c) d u])
    /\ (forall fi,
          v = Ok fi ->
          exists header,
            x = cosv5.Done header
            /\ storage.FileInfo.Key fi = key
            /\ storage.FileInfo.ETag fi = strings.Trim (http.Get header "ETag") (String quote "")
            /\ unquoted (storage.FileInfo.ETag fi)
            /\ (if storage.GetOption.WithTagging opt
                then exists t,
                    tag_tr = [EvObjectGetTagging key (cosv5.Done t)]
                    /\ storage.FileInfo.Tagging fi
                       = cosTagsToMap (cosv5.ObjectGetTaggingResult.TagSet t)
                else tag_tr = [] /\ storage.FileInfo.Tagging fi = None)
            /\ (if storage.GetOption.WithURL opt
                then exists d u,
                    url_tr = [EvGetPresignedURL "GET" key (secretID c) (secretKey c) d
                                (cosv5.Done u)]
                    /\ storage.FileInfo.URL fi = u
                else url_tr = [] /\ storage.FileInfo.URL fi = "")).
Proof.
  intros Hrun opt. unfold HeadObject in Hrun. cbn [run] in Hrun. fold opt in Hrun.
  destruct (object_head r key w) as [[header|err] w1].
  2:{ exists (cosv5.Failed err), [], [].
      destruct (IsNotFoundError (sdkError err)); injection Hrun as <- <- <-;
        (split; [reflexivity|]); (split; [left; reflexivity|]);
        (split; [left; reflexivity|]); discriminate. }
  cbv zeta in Hrun.
  set (size := fst (strconv.ParseInt (http.Get header "Content-Length") 10 64)) in *.
  set (lastModified := fst (http_ParseTime time_Parse (http.Get header "Last-Modified"))) in *.
  set (etag := strings.Trim (http.Get header "ETag") (String quote "")) in *.
  destruct (run r _ w1) as [[v0 w2] rest] eqn:Hrest. injection Hrun as <- <- <-.
  apply run_bind_inv in Hrest as (tg & w3 & t1 & t2 & Htag & Hrest & ->).
  exists (cosv5.Done header), t1, t2. split; [reflexivity|].
  destruct (storage.GetOption.WithTagging opt) eqn:Hwt.
  - cbn [run] in Htag.
    destruct (object_get_tagging r key w1) as [[t|err] w4]; injection Htag as <- <- <-.
    + split; [right; split; [reflexivity|eauto]|].
      destruct (storage.GetOption.WithURL opt) eqn:Hwu.
      * apply run_bind_inv in Hrest as (u & w5 & t3 & t4 & Hurl & Hret & ->).
        unfold GetObjectUrl in Hurl. cbn [run] in Hurl. unfold http.MethodGet in Hurl.
        destruct (presigned_url r _ _ _ _ _ w4) as [[url|err] w6];
          injection Hurl as <- <- <-; injection Hret as <- <- <-.
        -- split; [right; split; [reflexivity|eauto]|].
           intros fi Hfi. injection Hfi as <-. exists header.
           repeat split; try apply Trim_unquoted; eauto.
        -- split; [right; split; [reflexivity|eauto]|]. discriminate.
      * injection Hrest as <- <- <-. split; [left; reflexivity|].
        intros fi Hfi. injection Hfi as <-. exists header.
        repeat split; try apply Trim_unquoted; eauto.
    + injection Hrest as <- <- <-.
      split; [right; split; [reflexivity|eauto]|].
      split; [left; reflexivity|]. discriminate.
  - injection Htag as <- <- <-. split; [left; reflexivity|].
    destruct (storage.GetOption.WithURL opt) eqn:Hwu.
    + apply run_bind_inv in Hrest as (u & w5 & t3 & t4 & Hurl & Hret & ->).
      unfold GetObjectUrl in Hurl. cbn [run] in Hurl. unfold http.MethodGet in Hurl.
      destruct (presigned_url r _ _ _ _ _ w1) as [[url|err] w6];
        injection Hurl as <- <- <-; injection Hret as <- <- <-.
      * split; [right; split; [reflexivity|eauto]|].
        intros fi Hfi. injection Hfi as <-. exists header.
        repeat split; try apply Trim_unquoted; eauto.
      * split; [right; split; [reflexivity|eauto]|]. discriminate.
    + injection Hrest as <- <- <-. split; [left; reflexivity|].
      intros fi Hfi. injection Hfi as <-. exists header.
      repeat split; try apply Trim_unquoted; eauto.
Qed.

(** ** No call after a failed one *)

Lemma failure_only_last_cons (bad : bool) (ev : Event) (tr : list Event) :
  failed_event ev = false ->
  failure_only_last bad tr -> failure_only_last bad (ev :: tr).
Proof.
  intros Hev. destruct bad; simpl.
  - intros (pre & ev' & -> & Hfailed & Hpre).
    exists (ev :: pre), ev'. repeat split; trivial.
    simpl. rewrite Hev. exact Hpre.
  - intros H. rewrite Hev. exact H.
Qed.

Lemma failure_only_last_failed (ev : Event) :
  failed_event ev = true -> failure_only_last true [ev].
Proof.
  intros H. exists [], ev. repeat split; trivial.
Qed.

Lemma fails_fast_sound {W A : Type} (r : Remote W) (bad : A -> bool) (p : Prog A) :
  fails_fast bad p ->
  forall (w w' : W) (v : A) (tr : list Event),
    run r p w = (v, w', tr) -> failure_only_last (bad v) tr.
Proof.
  induction 1 as [a Ha|opt k Hf Hd IH|key body opt k Hf Hd IH|key k Hf Hd IH
                  |key k Hf Hd IH|m key ak sk e k Hf Hd IH];
    intros w w' v tr Hrun; cbn [run] in Hrun.
  - injection Hrun as <- <- <-. rewrite Ha. reflexivity.
  - destruct (bucket_get r opt w) as [[res|err] w1].
    + destruct (run r (k (cosv5.Done res)) w1) as [[v0 w2] tr0] eqn:Hk.
      injection Hrun as <- <- <-.
      apply failure_only_last_cons; [reflexivity|]. exact (IH res _ _ _ _ Hk).
    + destruct (Hf err) as (a & Hk & Ha). rewrite Hk in Hrun. cbn [run] in Hrun.
      injection Hrun as <- <- <-. rewrite Ha.
      apply failure_only_last_failed. reflexivity.
  - destruct (object_put r key body opt w) as [[res|err] w1].
    + destruct (run r (k (cosv5.Done res)) w1) as [[v0 w2] tr0] eqn:Hk.
      injection Hrun as <- <- <-.
      apply failure_only_last_cons; [reflexivity|]. exact (IH res _ _ _ _ Hk).
    + destruct (Hf err) as (a & Hk & Ha). rewrite Hk in Hrun. cbn [run] in Hrun.
      injection Hrun as <- <- <-. rewrite Ha.
      apply failure_only_last_failed. reflexivity.
  - destruct (object_head r key w) as [[res|err] w1].
    + destruct (run r (k (cosv5.Done res)) w1) as [[v0 w2] tr0] eqn:Hk.
      injection Hrun as <- <- <-.
      apply failure_only_last_cons; [reflexivity|]. exact (IH res _ _ _ _ Hk).
    + destruct (Hf err) as (a & Hk & Ha). rewrite Hk in Hrun. cbn [run] in Hrun.
      injection Hrun as <- <- <-. rewrite Ha.
      apply failure_only_last_failed. reflexivity.
  - destruct (object_get_tagging r key w) as [[res|err] w1].
    + destruct (run r (k (cosv5.Done res)) w1) as [[v0 w2] tr0] eqn:Hk.
      injection Hrun as <- <- <-.
      apply failure_only_last_cons; [reflexivity|]. exact (IH res _ _ _ _ Hk).
    + destruct (Hf err) as (a & Hk & Ha). rewrite Hk in Hrun. cbn [run] in Hrun.
      injection Hrun as <- <- <-. rewrite Ha.
      apply failure_only_last_failed. reflexivity.
  - destruct (presigned_url r m key ak sk e w) as [[res|err] w1].
    + destruct (run r (k (cosv5.Done res)) w1) as [[v0 w2] tr0] eqn:Hk.
      injection Hrun as <- <- <-.
      apply failure_only_last_cons; [reflexivity|]. exact (IH res _ _ _ _ Hk).
    + destruct (Hf err) as (a & Hk & Ha). rewrite Hk in Hrun. cbn [run] in Hrun.
      injection Hrun as <- <- <-. rewrite Ha.
      apply failure_only_last_failed. reflexivity.
Qed.

Lemma fails_fast_bind {A B : Type} (badA : A -> bool) (badB : B -> bool)
    (p : Prog A) (f : A -> Prog B) :
  fails_fast badA p ->
  (forall a, badA a = false -> fails_fast badB (f a)) ->
  (forall a, badA a = true -> exists b, f a = Ret b /\ badB b = true) ->
  fails_fast badB (bind p f).
Proof.
  intros Hp Hgood Hbad.
  induction Hp as [a Ha|opt k Hf Hd IH|key body opt k Hf Hd IH|key k Hf Hd IH
                   |key k Hf Hd IH|m key ak sk e k Hf Hd IH]; cbn [bind].
  - exact (Hgood a Ha).
  - constructor; [|exact IH].
    intros err. destruct (Hf err) as (a & -> & Ha). exact (Hbad a Ha).
  - constructor; [|exact IH].
    intros err. destruct (Hf err) as (a & -> & Ha). exact (Hbad a Ha).
  - constructor; [|exact IH].
    intros err. destruct (Hf err) as (a & -> & Ha). exact (Hbad a Ha).
  - constructor; [|exact IH].
    intros err. destruct (Hf err) as (a & -> & Ha). exact (Hbad a Ha).
  - constructor; [|exact IH].
    intros err. destruct (Hf err) as (a & -> & Ha). exact (Hbad a Ha).
Qed.


Lemma fails_fast_GetObjectUrl (c : cosClient) (key : string) (opts : list storage.GetOptFn) :
  fails_fast is_Err (GetObjectUrl c key opts).
Proof.
  unfold GetObjectUrl. constructor.
  - intros err. eexists. split; reflexivity.
  - intros u. constructor. reflexivity.
Qed.





Lemma fails_fast_HeadObject (c : cosClient) (key : string) (opts : list storage.GetOptFn) :
  fails_fast is_Err (HeadObject time_Parse c key opts).
Proof.
  unfold HeadObject. constructor.
  - intros err. destruct (IsNotFoundError (sdkError err)); eexists; split; reflexivity.
  - intros header. cbv zeta.
    apply (fails_fast_bind is_Err is_Err).
    + destruct (storage.GetOption.WithTagging _).
      * constructor.
        -- intros err. eexists. split; reflexivity.
        -- intros t. constructor. reflexivity.
      * constructor. reflexivity.
    + intros [fi|e] Hfi; [|discriminate Hfi].
      destruct (storage.GetOption.WithURL _); [|constructor; reflexivity].
      apply (fails_fast_bind is_Err is_Err); [apply fails_fast_GetObjectUrl| |].
      * intros [u|e] Hu; [|discriminate Hu]. constructor. reflexivity.
      * intros [u|e] Hu; [discriminate Hu|]. eexists. split; reflexivity.
    + intros [fi|e] Hfi; [discriminate Hfi|]. eexists. split; reflexivity.
Qed.



(** X13 (HeadObject): a head reports an error exactly when one of its calls
    failed, and makes no call after a failed one: a failed tag fetch is not
    followed by a presign. *)
Theorem HeadObject_stops_at_failure {W : Type} (r : Remote W) (c : cosClient)
    (key : string) (opts : list storage.GetOptFn) (w : W) :
  let res := run r (HeadObject time_Parse c key opts) w in
  match value res with
  | Ok _ => existsb failed_event (trace res) = false
  | Err _ =>
      exists pre ev, trace res = pre ++ [ev] /\ failed_event ev = true
                     /\ existsb failed_event pre = false
  end.
Proof.
  intros res.
  destruct res as [[v w'] tr] eqn:Hrun. unfold value, trace. cbn [fst snd].
  pose proof (fails_fast_sound r is_Err _ (fails_fast_HeadObject c key opts)
                _ _ _ _ Hrun) as H.
  destruct v; exact H.
Qed.

(** ** The drain follows the markers *)

Lemma loop_follows_markers {W : Type} (r : Remote W) (c : cosClient) (prefix : string)
    (opts : list storage.GetOptFn) (fuel : nat) :
  forall (files0 : list storage.FileInfo.t) (cursor : string) (w w' : W)
         (v : option (result (list storage.FileInfo.t))) (tr : list Event),
    run r (ListAllObjects_loop time_Parse fuel c prefix opts files0 cursor) w = (v, w', tr) ->
    drained prefix cursor (list_replies tr)
    /\ (forall files,
          v = Some (Ok files) ->
          exists opt res,
            last (list_replies tr) = Some (opt, cosv5.Done res)
            /\ (cosv5.BucketGetResult.IsTruncated res = false
                \/ cosv5.BucketGetResult.NextMarker res = ""
                \/ maxListObjects <= Z.of_nat (length files))).
Proof.
  induction fuel as [|fuel IH]; intros files0 cursor w w' v tr Hrun;
    cbn [ListAllObjects_loop] in Hrun.
  - injection Hrun as <- <- <-. split; [exact I|discriminate].
  - apply run_bind_inv in Hrun as (pg & w1 & t1 & t2 & Hpage & Hrest & ->).
    rewrite list_replies_app.
    assert (Hsize : 0 < storage.ListObjectsPaginatedInput.PageSize
                          {| storage.ListObjectsPaginatedInput.Prefix := prefix;
                             storage.ListObjectsPaginatedInput.PageSize := defaultPageSize;
                             storage.ListObjectsPaginatedInput.Cursor := cursor |})
      by reflexivity.
    destruct (run_page time_Parse r c _ opts w w1 pg t1 Hsize Hpage)
      as (x & rest & Ht1 & Hx).
    destruct (run_page_replies time_Parse r c _ opts w w1 pg t1 Hsize Hpage)
      as (opt' & x' & Hreplies).
    assert (Hone : list_replies t1
                   = [({| cosv5.BucketGetOptions.Prefix := prefix;
                          cosv5.BucketGetOptions.Marker := cursor;
                          cosv5.BucketGetOptions.MaxKeys := 100 |}, x)]).
    { rewrite Ht1 in Hreplies |- *. cbn in Hreplies |- *.
      injection Hreplies as _ _ Hnil. rewrite Hnil. reflexivity. }
    rewrite Hone. clear Hreplies Hx.
    destruct pg as [out|e].
    + destruct (run_page_ok time_Parse r c _ opts w w1 out t1 Hsize Hpage)
        as (res & rest' & Ht1' & _ & _ & Hcursor & Htrunc).
      rewrite Ht1 in Ht1'. injection Ht1' as -> _.
      cbv zeta in Hrest.
      assert (Hstop :
                forall files : list storage.FileInfo.t,
                  (Z.of_nat (length files) >=? maxListObjects) = true
                  \/ (negb (storage.ListObjectsPaginatedOutput.IsTruncated out)
                      || String.eqb (storage.ListObjectsPaginatedOutput.Cursor out) "")
                     = true ->
                  cosv5.BucketGetResult.IsTruncated res = false
                  \/ cosv5.BucketGetResult.NextMarker res = ""
                  \/ maxListObjects <= Z.of_nat (length files)).
      { intros files [Hcap|Hend].
        - right. right. lia.
        - rewrite Hcursor, Htrunc in Hend. apply orb_true_iff in Hend as [Hend|Hend].
          + left. destruct (cosv5.BucketGetResult.IsTruncated res);
              [discriminate Hend|reflexivity].
          + right. left. apply String.eqb_eq. exact Hend. }
      destruct (_ >=? maxListObjects) eqn:Hcap.
      { injection Hrest as <- <- <-. split; [split; [reflexivity|exact I]|].
        intros files Hfiles. injection Hfiles as <-. eexists _, res.
        split; [reflexivity|]. apply Hstop. left. exact Hcap. }
      destruct (_ || _) eqn:Hend.
      { injection Hrest as <- <- <-. split; [split; [reflexivity|exact I]|].
        intros files Hfiles. injection Hfiles as <-. eexists _, res.
        split; [reflexivity|]. apply Hstop. right. reflexivity. }
      apply IH in Hrest as [Hnext Hlast].
      rewrite Hcursor, Htrunc in Hend. apply orb_false_iff in Hend as [Htr Hmk].
      split.
      * cbn [app drained]. split; [reflexivity|].
        destruct (list_replies t2) as [|y l] eqn:Ht2; [exact I|].
        exists res. split; [reflexivity|]. split.
        { destruct (cosv5.BucketGetResult.IsTruncated res);
            [reflexivity|discriminate Htr]. }
        split; [apply String.eqb_neq; exact Hmk|].
        rewrite <- Hcursor. exact Hnext.
      * intros files Hfiles. destruct (Hlast files Hfiles) as (opt & res0 & Hl & Hwhy).
        exists opt, res0. split; [|exact Hwhy].
        cbn [app]. destruct (list_replies t2) as [|y l]; [discriminate Hl|].
        rewrite last_cons. rewrite Hl. reflexivity.
    + injection Hrest as <- <- <-. split; [split; [reflexivity|exact I]|discriminate].
Qed.

(** X14 (ListAllObjects): the list calls of a drain ask for pages of 100
    keys of the prefix, the first from the start and each later one from the
    marker the reply before it gave; a further page is asked for only after
    a truncated page with a marker.  When the drain returns files, its last
    list reply was not truncated, or gave no marker, or the files collected
    have reached 10000. *)
Theorem ListAllObjects_follows_markers {W : Type} (r : Remote W) (c : cosClient)
    (prefix : string) (opts : list storage.GetOptFn) (fuel : nat) (w : W) :
  let res := run r (ListAllObjects time_Parse fuel c prefix opts) w in
  drained prefix "" (list_replies (trace res))
  /\ (forall files,
        value res = Some (Ok files) ->
        exists opt page,
          last (list_replies (trace res)) = Some (opt, cosv5.Done page)
          /\ (cosv5.BucketGetResult.IsTruncated page = false
              \/ cosv5.BucketGetResult.NextMarker page = ""
              \/ 10000 <= Z.of_nat (length files))).
Proof.
  intros res. destruct res as [[v w'] tr] eqn:Hrun. unfold value, trace. cbn [fst snd].
  exact (loop_follows_markers r c prefix opts fuel [] "" w w' v tr Hrun).
Qed.

(** ** A page without enrichment *)


(** ** Put: the call and its headers *)

Lemma Get_Set_tagging (v : string) :
  http.Get (http.Set_ ∅ "x-cos-tagging" v) "x-cos-tagging" = v.
Proof.
  unfold http.Get, http.Set_.
  rewrite lookup_insert_eq. reflexivity.
Qed.

(** X16 (PutObjectWithReader): a put is one put call that carries the key
    and the payload as given.  Nil is returned exactly when the call
    succeeded; the error of a failed call is returned wrapped as
    [put object failed].  The call carries an extra header map only when the
    options hold a non-empty tag map: the map then has the one header
    [x-cos-tagging], with the encoded tags. *)
Theorem PutObjectWithReader_one_call {W : Type} (r : Remote W) (c : cosClient)
    (key content : string) (opts : list storage.PutOptFn) (w : W) :
  exists o,
    run r (PutObjectWithReader time_Format MapToQuery c key content opts) w
    = (match fst (object_put r key content o w) with
       | cosv5.Done _ => None
       | cosv5.Failed err => Some (wrapError "put object failed: " (sdkError err))
       end,
       snd (object_put r key content o w),
       [EvObjectPut key content o (fst (object_put r key content o w))])
    /\ match storage.PutOption.Tagging (apply_opts opts storage.PutOption.zero) with
       | Some tags =>
           if (0 <? size tags)%nat
           then exists h,
               cosv5.ObjectPutOptions.XOptionHeader o = Some h
               /\ size h = 1%nat
               /\ http.Get h "x-cos-tagging" = MapToQuery tags
           else cosv5.ObjectPutOptions.XOptionHeader o = None
       | None => cosv5.ObjectPutOptions.XOptionHeader o = None
       end.
Proof.
  unfold PutObjectWithReader. cbv zeta.
  match goal with
  | |- context [Object_Put key content ?o _] => exists o
  end.
  split.
  - cbn [run].
    match goal with
    | |- context [object_put r key content ?o w] =>
        destruct (object_put r key content o w) as [[u|err] w1]
    end; reflexivity.
  - cbn [cosv5.ObjectPutOptions.XOptionHeader].
    destruct (storage.PutOption.Tagging _) as [tags|]; [|reflexivity].
    destruct (0 <? size tags)%nat; [|reflexivity].
    eexists. split; [reflexivity|]. split.
    + unfold http.Set_. cbn [cosv5.ObjectPutOptions.XOptionHeader cosv5.ObjectPutOptions.zero].
      rewrite insert_empty. apply map_size_singleton.
    + apply Get_Set_tagging.
Qed.

(** X17 (PutObject): a put of a byte slice hands the options of the caller
    on to the put from a reader: what the two send for the same arguments
    has the same key, payload and headers, and differs at most in the
    content length. *)
Theorem PutObject_keeps_headers (c : cosClient) (key content : string)
    (opts : list storage.PutOptFn) :
  exists o1 o2 k,
    PutObject time_Format MapToQuery c key content opts = Object_Put key content o1 k
    /\ PutObjectWithReader time_Format MapToQuery c key content opts
       = Object_Put key content o2 k
    /\ cosv5.ObjectPutOptions.ContentType o1 = cosv5.ObjectPutOptions.ContentType o2
    /\ cosv5.ObjectPutOptions.ContentEncoding o1 = cosv5.ObjectPutOptions.ContentEncoding o2
    /\ cosv5.ObjectPutOptions.ContentDisposition o1
       = cosv5.ObjectPutOptions.ContentDisposition o2
    /\ cosv5.ObjectPutOptions.ContentLanguage o1 = cosv5.ObjectPutOptions.ContentLanguage o2
    /\ cosv5.ObjectPutOptions.Expires o1 = cosv5.ObjectPutOptions.Expires o2
    /\ cosv5.ObjectPutOptions.XOptionHeader o1 = cosv5.ObjectPutOptions.XOptionHeader o2.
Proof.
  unfold PutObject, PutObjectWithReader. cbv zeta.
  rewrite (apply_opts_app (O:=storage.PutOption.t) opts
             [storage.WithObjectSize (Z.of_nat (String.length content))]).
  eexists _, _, _. split; [reflexivity|]. split; [reflexivity|].
  repeat split.
Qed.

(** ** ETags of a listing *)

Lemma unenriched_ETag (f : storage.FileInfo.t) :
  storage.FileInfo.ETag (unenriched f) = storage.FileInfo.ETag f.
Proof. reflexivity. Qed.

Lemma unquoted_of_unenriched (files listed : list storage.FileInfo.t) :
  map unenriched files = listed ->
  Forall (fun f => unquoted (storage.FileInfo.ETag f)) listed ->
  Forall (fun f => unquoted (storage.FileInfo.ETag f)) files.
Proof.
  intros <-. induction files as [|f files IH]; intros H; [constructor|].
  cbn [map] in H. inversion H as [|? ? Hf Hrest]; subst.
  constructor; [exact Hf|exact (IH Hrest)].
Qed.

Lemma page_files_unquoted (res : cosv5.BucketGetResult.t) :
  Forall (fun f => unquoted (storage.FileInfo.ETag f)) (page_files time_Parse res).
Proof.
  unfold page_files. apply Forall_map. apply Forall_forall.
  intros obj _. apply Trim_unquoted.
Qed.

Lemma reply_files_unquoted
    (replies : list (cosv5.BucketGetOptions.t * cosv5.reply cosv5.BucketGetResult.t)) :
  Forall (fun f => unquoted (storage.FileInfo.ETag f)) (reply_files time_Parse replies).
Proof.
  unfold reply_files. induction replies as [|[opt [res|err]] replies IH]; cbn [flat_map].
  - constructor.
  - apply Forall_app. split; [apply page_files_unquoted|exact IH].
  - exact IH.
Qed.

(** X18 (ListObjectsPaginated, ListAllObjects): no file of a page or of a
    drain has an ETag that starts or ends with a double quote.  The ETag of
    a listed entry is kept as it is when it has no quote at either end, and
    an ETag sent between a pair of quotes is returned without them. *)
Theorem listed_ETags_are_unquoted {W : Type} (r : Remote W) (c : cosClient)
    (opts : list storage.GetOptFn) (w : W) :
  (forall input out,
      value (run r (ListObjectsPaginated time_Parse c input opts) w) = Ok out ->
      Forall (fun f => unquoted (storage.FileInfo.ETag f))
             (storage.ListObjectsPaginatedOutput.Files out))
  /\ (forall fuel prefix files,
         value (run r (ListAllObjects time_Parse fuel c prefix opts) w) = Some (Ok files) ->
         Forall (fun f => unquoted (storage.FileInfo.ETag f)) files)
  /\ (forall obj,
         unquoted (cosv5.Object.ETag obj) ->
         storage.FileInfo.ETag (toFileInfo time_Parse obj) = cosv5.Object.ETag obj)
  /\ (forall obj etag,
         unquoted etag ->
         cosv5.Object.ETag obj = String quote (etag +:+ String quote "") ->
         storage.FileInfo.ETag (toFileInfo time_Parse obj) = etag).
Proof.
  split; [|split; [|split]].
  - intros input out Hv.
    destruct (run r (ListObjectsPaginated time_Parse c input opts) w) as [[v w'] tr] eqn:Hrun.
    unfold value in Hv. cbn [fst] in Hv. subst v.
    destruct input as [input|]; [|discriminate Hrun].
    destruct (Z.leb_spec (storage.ListObjectsPaginatedInput.PageSize input) 0) as [Hle|Hlt].
    { unfold ListObjectsPaginated in Hrun.
      apply Z.leb_le in Hle. rewrite Hle in Hrun. discriminate Hrun. }
    destruct (run_page_ok time_Parse r c input opts w w' out tr Hlt Hrun)
      as (res & rest & _ & _ & Hfiles & _).
    exact (unquoted_of_unenriched _ _ Hfiles (page_files_unquoted res)).
  - intros fuel prefix files Hv.
    destruct (run r (ListAllObjects time_Parse fuel c prefix opts) w) as [[v w'] tr] eqn:Hrun.
    unfold value in Hv. cbn [fst] in Hv. subst v.
    apply (run_ListAllObjects_loop time_Parse) in Hrun. cbn [map app] in Hrun.
    exact (unquoted_of_unenriched _ _ Hrun (reply_files_unquoted _)).
  - intros obj Hobj. exact (proj1 (Trim_strips _ Hobj)).
  - intros obj etag Hetag Hobj. cbn [toFileInfo storage.FileInfo.ETag].
    rewrite Hobj. exact (proj2 (Trim_strips _ Hetag)).
Qed.

End MoreProperties.

(** * Further worked examples *)

(** A head of [a.txt] with both options: three calls. *)
Lemma HeadObject_exchanges_example :
  exists x tag_tr url_tr,
    trace (run (small_remote false)
               (HeadObject sample_time_Parse sample_client "a.txt"
                  [storage.WithTagging true; storage.WithURL true]) tt)
    = EvObjectHead "a.txt" x :: tag_tr ++ url_tr.
Proof.
  set (res := run (small_remote false)
                  (HeadObject sample_time_Parse sample_client "a.txt"
                     [storage.WithTagging true; storage.WithURL true]) tt).
  assert (Hrun : res = (value res, tt, trace res)) by (vm_compute; reflexivity).
  destruct (HeadObject_exchanges sample_time_Parse (small_remote false) sample_client
              "a.txt" [storage.WithTagging true; storage.WithURL true] tt tt
              (value res) (trace res) Hrun)
    as (x & tag_tr & url_tr & Htr & _).
  exists x, tag_tr, url_tr. exact Htr.
Defined.



(** Unlike a head, a get of a missing key hands on the 404 of the SDK. *)
Example GetObject_missing_key :
  GetObject (sample_store false) sample_client "nothing" true
  = (Err (sdkError (ErrorResponse 404 "NoSuchKey" "")), true,
     [EvObjectGet "nothing" (cosv5.Failed (ErrorResponse 404 "NoSuchKey" ""))]).
Proof. reflexivity. Qed.

(** A lifetime of 9223372037 seconds overflows the duration. *)
Example GetObjectUrl_lifetime_overflow :
  trace (run (small_remote false)
             (GetObjectUrl sample_client "a.txt" [storage.WithExpire 9223372037]) tt)
  = [EvGetPresignedURL "GET" "a.txt" (secretID sample_client) (secretKey sample_client)
       (-9223372036709551616)
       (cosv5.Done "https://demo-bucket.cos.ap-beijing.myqcloud.com/a.txt")].
Proof. vm_compute. reflexivity. Qed.

(** The bucket is created once: a second construction finds it. *)
Example CheckAndCreateBucket_twice :
  let '(err1, w1, tr1) := CheckAndCreateBucket (sample_store false) sample_client false in
  let '(err2, w2, tr2) := CheckAndCreateBucket (sample_store false) sample_client w1 in
  err1 = None /\ err2 = None
  /\ existsb is_bucket_put tr1 = true /\ existsb is_bucket_put tr2 = false.
Proof. vm_compute. repeat split. Qed.

(** ** Endpoint resolver: the shape of the URLs *)

Lemma HasPrefix_inv (s p : string) :
  strings.HasPrefix s p = true -> exists r, s = p +:+ r.
Proof.
  revert s. induction p as [|a p IH]; intros s H.
  - exists s. reflexivity.
  - destruct s as [|c s]; [discriminate H|]. cbn [strings.HasPrefix] in H.
    apply andb_true_iff in H as [Hc H]. apply Ascii.eqb_eq in Hc as ->.
    destruct (IH s H) as [r ->]. exists r. reflexivity.
Qed.

Lemma Index_app_lacks (c : ascii) (p s : string) :
  byte_among c p = false ->
  strings.Index (p +:+ s) (String c "")
  = option_map (fun i => (String.length p + i)%nat) (strings.Index s (String c "")).
Proof.
  intros H. induction p as [|a p IH].
  - rewrite append_nil_l. destruct (strings.Index s _); reflexivity.
  - rewrite append_cons. cbn [byte_among] in H. apply orb_false_iff in H as [Ha Hp].
    cbn [strings.Index strings.HasPrefix]. rewrite Ascii.eqb_sym, Ha, (IH Hp).
    destruct (strings.Index s _); reflexivity.
Qed.

Lemma take_app_length (p s : string) (i : nat) :
  strings.take (String.length p + i) (p +:+ s) = p +:+ strings.take i s.
Proof.
  induction p as [|a p IH]; [reflexivity|].
  rewrite !append_cons. cbn [String.length Nat.add strings.take]. rewrite IH. reflexivity.
Qed.

Lemma Cut_keeps_prefix (c : ascii) (p s : string) :
  byte_among c p = false ->
  fst (fst (strings.Cut (p +:+ s) (String c "")))
  = p +:+ fst (fst (strings.Cut s (String c ""))).
Proof.
  intros H. unfold strings.Cut. rewrite (Index_app_lacks c p s H).
  destruct (strings.Index s (String c "")) as [i|]; cbn [option_map fst];
    [apply take_app_length|reflexivity].
Qed.

Lemma take_all_but_last (a : ascii) (r : string) :
  strings.take (String.length (String "/" (String "/" (String a r))) - 1)
               (String "/" (String "/" (String a r)))
  = String "/" (String "/" (strings.take (String.length r) (String a r))).
Proof.
  cbn [String.length Nat.sub strings.take]. reflexivity.
Qed.

(** An URL text that starts with a scheme and two slashes parses, if at all,
    to that scheme in authority form. *)
Lemma parse_authority_form (scheme r : string) (u : url.URL) :
  url.getScheme (scheme +:+ "://" +:+ r) = Ok (scheme, String "/" (String "/" r)) ->
  strings.ToLower scheme = scheme -> scheme <> "" ->
  url.parse (scheme +:+ "://" +:+ r) false = Ok u ->
  url.Scheme u = scheme /\ url.Opaque u = "".
Proof.
  intros Hscheme Hlower Hne. unfold url.parse.
  destruct (url.stringContainsCTLByte _); [discriminate|].
  rewrite andb_false_r.
  destruct (String.eqb (scheme +:+ "://" +:+ r) "*") eqn:Hstar.
  { apply String.eqb_eq in Hstar. rewrite Hstar in Hscheme. discriminate Hscheme. }
  rewrite Hscheme. cbv beta iota. rewrite Hlower.
  assert (Hrest :
            exists r1 q,
              (if strings.HasSuffix (String "/" (String "/" r)) "?"
                  && (strings.CountByte (String "/" (String "/" r)) "?" =? 1)%nat
               then (strings.take (String.length (String "/" (String "/" r)) - 1)
                                  (String "/" (String "/" r)), EmptyString)
               else let '(before, after, _) :=
                      strings.Cut (String "/" (String "/" r)) "?" in (before, after))
              = (String "/" (String "/" r1), q)).
  { destruct (strings.HasSuffix _ "?" && _) eqn:Hq.
    - destruct r as [|a r]; [discriminate Hq|].
      rewrite take_all_but_last. eauto.
    - pose proof (Cut_keeps_prefix "?" "//" r eq_refl) as Hcut.
      change ("//" +:+ r) with (String "/" (String "/" r)) in Hcut.
      destruct (strings.Cut (String "/" (String "/" r)) "?") as [[before after] found].
      cbn [fst] in Hcut. rewrite Hcut. eexists _, _. reflexivity. }
  destruct Hrest as (r1 & q & ->).
  change (strings.HasPrefix (String "/" (String "/" r1)) "/") with true.
  change (strings.HasPrefix (String "/" (String "/" r1)) "//") with true.
  destruct (String.eqb_spec scheme ""); [contradiction|].
  cbn [negb andb orb]. cbv beta iota.
  destruct (match strings.Index (strings.drop 2 (String "/" (String "/" r1))) "/" with
            | Some i => _ | None => _ end) as [authority rest'].
  destruct (url.parseAuthority authority) as [[user host]|e]; [|discriminate].
  unfold url.setPath. destruct (url.unescape rest' url.encodePath); [|discriminate].
  intros H. injection H as <-. split; reflexivity.
Qed.

Lemma Parse_authority_form (scheme rest : string) (u : url.URL) :
  (forall r, url.getScheme (scheme +:+ "://" +:+ r)
             = Ok (scheme, String "/" (String "/" r))) ->
  strings.ToLower scheme = scheme -> scheme <> "" ->
  byte_among "#" (scheme +:+ "://") = false ->
  url.Parse (scheme +:+ "://" +:+ rest) = Ok u ->
  url.Scheme u = scheme /\ url.Opaque u = "".
Proof.
  intros Hscheme Hlower Hne Hhash. unfold url.Parse.
  pose proof (Cut_keeps_prefix "#" (scheme +:+ "://") rest Hhash) as Hcut.
  rewrite append_assoc in Hcut.
  destruct (strings.Cut (scheme +:+ "://" +:+ rest) "#") as [[before frag] found].
  cbn [fst] in Hcut. rewrite Hcut, append_assoc.
  destruct (url.parse _ false) as [v|e] eqn:Hparse; [|discriminate].
  apply (parse_authority_form scheme _ v (Hscheme _) Hlower Hne) in Hparse
    as [Hs Ho].
  destruct (String.eqb frag "").
  - intros H. injection H as <-. split; assumption.
  - unfold url.setFragment. destruct (url.unescape frag url.encodeFragment); [|discriminate].
    intros H. injection H as <-. split; assumption.
Qed.

(** X19 (buildBaseURL): whatever the endpoint or region, the two URLs of a
    resolved configuration are http or https URLs in authority form without
    path, query or fragment.  They agree in scheme and user and differ at
    most in the host: the bucket host is the service host with the bucket
    name and a dot in front, unless the service host starts with them
    already, so it always starts with the bucket name and a dot. *)
Theorem buildBaseURL_shape (bucketName endpoint region : string) (base : BaseURL) :
  buildBaseURL bucketName endpoint region = Ok base ->
  (url.Scheme (ServiceURL base) = "http" \/ url.Scheme (ServiceURL base) = "https")
  /\ url.Opaque (ServiceURL base) = ""
  /\ url.Path (ServiceURL base) = "" /\ url.RawQuery (ServiceURL base) = ""
  /\ url.Fragment (ServiceURL base) = ""
  /\ BucketURL base
     = {| url.Scheme := url.Scheme (ServiceURL base); url.Opaque := "";
          url.User := url.User (ServiceURL base);
          url.Host := bucket_host_spec bucketName (url.Host (ServiceURL base));
          url.Path := ""; url.RawQuery := ""; url.Fragment := "" |}
  /\ strings.HasPrefix (url.Host (BucketURL base)) (bucketName +:+ ".") = true.
Proof.
  unfold buildBaseURL.
  destruct (String.eqb bucketName ""); [discriminate|].
  destruct (String.eqb endpoint "" && String.eqb region ""); [discriminate|].
  cbv zeta.
  set (e1 := if String.eqb endpoint "" then _ else endpoint).
  set (e2 := if negb (strings.HasPrefix e1 "http://") && negb (strings.HasPrefix e1 "https://")
             then "https://" +:+ e1 else e1).
  assert (He2 : exists scheme rest,
             (scheme = "http" \/ scheme = "https") /\ e2 = scheme +:+ "://" +:+ rest).
  { unfold e2. destruct (strings.HasPrefix e1 "http://") eqn:Hhttp.
    - apply HasPrefix_inv in Hhttp as [rest ->]. exists "http", rest. auto.
    - destruct (strings.HasPrefix e1 "https://") eqn:Hhttps.
      + apply HasPrefix_inv in Hhttps as [rest ->]. exists "https", rest. auto.
      + exists "https", e1. auto. }
  destruct He2 as (scheme & rest & Hscheme & He2). rewrite He2. clear e2 He2.
  destruct (url.Parse (scheme +:+ "://" +:+ rest)) as [parsed|e] eqn:Hparse; [|discriminate].
  assert (Hshape : url.Scheme parsed = scheme /\ url.Opaque parsed = "").
  { destruct Hscheme as [-> | ->];
      apply (Parse_authority_form _ rest parsed); trivial; discriminate. }
  destruct Hshape as [Hs Ho].
  intros H. injection H as <-. cbn [ServiceURL BucketURL url.Scheme url.Opaque url.Path
                                      url.RawQuery url.Fragment url.User url.Host].
  rewrite Hs, Ho. split; [destruct Hscheme; subst; auto|].
  repeat (split; [reflexivity|]).
  unfold bucket_host_spec.
  destruct (strings.HasPrefix (url.Host parsed) (bucketName +:+ ".")) eqn:Hpre;
    cbn [negb].
  - split; [reflexivity|exact Hpre].
  - split; [reflexivity|]. rewrite <- append_assoc. apply HasPrefix_append.
Qed.

Lemma buildBaseURL_shape_example :
  exists base,
    buildBaseURL "demo-bucket" "http://cos.ap-beijing.myqcloud.com/some/path?x=1#top" ""
    = Ok base
    /\ url.Scheme (ServiceURL base) = "http"
    /\ url.Path (ServiceURL base) = ""
    /\ strings.HasPrefix (url.Host (BucketURL base)) "demo-bucket." = true.
Proof.
  destruct (buildBaseURL "demo-bucket"
              "http://cos.ap-beijing.myqcloud.com/some/path?x=1#top" "")
    as [base|e] eqn:Hbase; [|vm_compute in Hbase; discriminate Hbase].
  exists base. split; [reflexivity|].
  destruct (buildBaseURL_shape _ _ _ base Hbase) as (_ & _ & Hpath & _ & _ & _ & Hhost).
  split; [|split; [exact Hpath|exact Hhost]].
  vm_compute in Hbase. injection Hbase as <-. reflexivity.
Defined.

(** ** Endpoint resolver: an endpoint that is a plain host *)

Lemma Parse_http_unreserved (host : string) :
  all_unreserved host = true ->
  url.Parse ("http://" +:+ host)
  = Ok {| url.Scheme := "http"; url.Opaque := ""; url.User := None; url.Host := host;
          url.Path := ""; url.RawQuery := ""; url.Fragment := "" |}.
Proof.
  intros H.
  assert (Hlacks : forall x, is_unreserved x = false ->
                             byte_among x ("http://" +:+ host) = byte_among x "http://").
  { intros x Hx. rewrite byte_among_app, (unreserved_lacks x host Hx H). apply orb_false_r. }
  assert (Hhash : strings.Index ("http://" +:+ host) "#" = None)
    by (apply Index_lacks; rewrite Hlacks; reflexivity).
  assert (Hctl : url.stringContainsCTLByte ("http://" +:+ host) = false)
    by (rewrite stringContainsCTLByte_app, (unreserved_no_CTL host H); reflexivity).
  assert (Hscheme : url.getScheme ("http://" +:+ host)
                    = Ok ("http", String "/" (String "/" host))) by reflexivity.
  assert (Hrest : forall x, is_unreserved x = false ->
                            byte_among x (String "/" (String "/" host)) = byte_among x "//").
  { intros x Hx. change (String "/" (String "/" host)) with ("//" +:+ host).
    rewrite byte_among_app, (unreserved_lacks x host Hx H). apply orb_false_r. }
  assert (Hcount : strings.CountByte (String "/" (String "/" host)) "?" = O)
    by (apply CountByte_lacks; rewrite Hrest; reflexivity).
  assert (Hquery : strings.Index (String "/" (String "/" host)) "?" = None)
    by (apply Index_lacks; rewrite Hrest; reflexivity).
  pose proof (Index_lacks "/" host (unreserved_lacks "/" host eq_refl H)) as Hslash.
  pose proof (LastIndex_lacks "@" host (unreserved_lacks "@" host eq_refl H)) as Hat.
  unfold url.Parse, strings.Cut. rewrite Hhash. cbv beta iota.
  unfold url.parse. rewrite Hctl.
  change ("http://" +:+ host =? "")%string with false.
  change ("http://" +:+ host =? "*")%string with false.
  cbv beta iota. rewrite Hscheme. cbv beta iota.
  change (strings.ToLower "http") with "http".
  rewrite Hcount. change (0 =? 1)%nat with false. rewrite !andb_false_r.
  unfold strings.Cut. rewrite Hquery. cbv beta iota zeta.
  change (strings.HasPrefix (String "/" (String "/" host)) "/") with true.
  change (strings.HasPrefix (String "/" (String "/" host)) "//") with true.
  change ("http" =? "")%string with false.
  cbn [negb andb orb]. cbv beta iota.
  change (strings.drop 2 (String "/" (String "/" host))) with host.
  rewrite Hslash. cbv beta iota.
  unfold url.parseAuthority. rewrite Hat, (parseHost_unreserved host H).
  reflexivity.
Qed.

Lemma HasPrefix_byte (c : ascii) (s p : string) :
  strings.HasPrefix s p = true -> byte_among c p = true -> byte_among c s = true.
Proof.
  intros Hp Hc. apply HasPrefix_inv in Hp as [r ->].
  rewrite byte_among_app, Hc. reflexivity.
Qed.

Lemma unreserved_no_scheme (host p : string) :
  all_unreserved host = true -> byte_among ":" p = true ->
  strings.HasPrefix host p = false.
Proof.
  intros H Hp. destruct (strings.HasPrefix host p) eqn:Hpre; [|reflexivity].
  pose proof (HasPrefix_byte ":" host p Hpre Hp) as Hin.
  rewrite (unreserved_lacks ":" host eq_refl H) in Hin. discriminate Hin.
Qed.

(** X20 (buildBaseURL): an endpoint that is given decides, and the region
    is not looked at.  For a host name made of letters, digits and [-._~],
    the endpoint may be the bare host, which is read as https, or the host
    after [https://] or [http://], which keeps its scheme: the service URL
    is that scheme and host, the bucket URL has the bucket host. *)
Theorem buildBaseURL_endpoint_forms (bucketName host region : string) :
  bucketName <> "" -> host <> "" -> all_unreserved host = true ->
  let resolved scheme :=
    Ok {| BucketURL :=
            {| url.Scheme := scheme; url.Opaque := ""; url.User := None;
               url.Host := bucket_host_spec bucketName host;
               url.Path := ""; url.RawQuery := ""; url.Fragment := "" |};
          ServiceURL :=
            {| url.Scheme := scheme; url.Opaque := ""; url.User := None;
               url.Host := host;
               url.Path := ""; url.RawQuery := ""; url.Fragment := "" |} |} in
  buildBaseURL bucketName host region = resolved "https"
  /\ buildBaseURL bucketName ("https://" +:+ host) region = resolved "https"
  /\ buildBaseURL bucketName ("http://" +:+ host) region = resolved "http".
Proof.
  intros Hbucket Hhost Hsafe resolved. unfold resolved, buildBaseURL, bucket_host_spec.
  destruct (String.eqb_spec bucketName ""); [contradiction|].
  destruct (String.eqb_spec host ""); [contradiction|].
  change (String.eqb ("https://" +:+ host) "") with false.
  change (String.eqb ("http://" +:+ host) "") with false.
  cbn [andb]. cbv zeta.
  rewrite (unreserved_no_scheme host "http://" Hsafe eq_refl).
  rewrite (unreserved_no_scheme host "https://" Hsafe eq_refl).
  change (strings.HasPrefix ("https://" +:+ host) "https://") with true.
  change (strings.HasPrefix ("http://" +:+ host) "http://") with true.
  rewrite !andb_false_r. cbn [negb andb].
  rewrite (Parse_https_unreserved host Hsafe), (Parse_http_unreserved host Hsafe).
  cbn [url.Scheme url.Opaque url.User url.Host url.Path url.RawQuery url.Fragment].
  destruct (strings.HasPrefix host (bucketName +:+ ".")); cbn [negb];
    repeat split.
Qed.

Lemma buildBaseURL_endpoint_forms_example :
  exists base,
    buildBaseURL "demo-bucket" "cos.ap-singapore.myqcloud.com" "ap-beijing" = Ok base
    /\ url.Scheme (ServiceURL base) = "https"
    /\ url.Host (ServiceURL base) = "cos.ap-singapore.myqcloud.com"
    /\ url.Host (BucketURL base) = "demo-bucket.cos.ap-singapore.myqcloud.com".
Proof.
  destruct (buildBaseURL_endpoint_forms "demo-bucket" "cos.ap-singapore.myqcloud.com"
              "ap-beijing") as [Hbare _]; [discriminate|discriminate|reflexivity|].
  eexists. split; [exact Hbare|]. repeat split.
Defined.

(** ** A drain of a single page *)

(** X21 (ListAllObjects, ListObjectsPaginated): when the first page of 100
    keys of the prefix is not truncated, or comes without a marker, a drain
    is that one page call: it makes the same calls, leaves the service in the
    same state and returns the files of the page.  When the page call fails,
    the drain makes the same calls and returns the error of the page call
    unchanged. *)
Theorem ListAllObjects_single_page {W : Type}
    (time_Parse : string -> string -> option time.Time) (r : Remote W) (c : cosClient)
    (prefix : string) (opts : list storage.GetOptFn) (fuel : nat) (w w' : W)
    (page : result storage.ListObjectsPaginatedOutput.t) (tr : list Event) :
  run r (ListObjectsPaginated time_Parse c
           (Some {| storage.ListObjectsPaginatedInput.Prefix := prefix;
                    storage.ListObjectsPaginatedInput.PageSize := 100;
                    storage.ListObjectsPaginatedInput.Cursor := "" |}) opts) w
  = (page, w', tr) ->
  match page with
  | Err _ => True
  | Ok out => storage.ListObjectsPaginatedOutput.IsTruncated out = false
              \/ storage.ListObjectsPaginatedOutput.Cursor out = ""
  end ->
  run r (ListAllObjects time_Parse (S fuel) c prefix opts) w
  = (match page with
     | Err err => Some (Err err)
     | Ok out => Some (Ok (storage.ListObjectsPaginatedOutput.Files out))
     end, w', tr).
Proof.
  intros Hpage Hlast. unfold ListAllObjects. cbn [ListAllObjects_loop].
  rewrite run_bind. unfold defaultPageSize. rewrite Hpage.
  destruct page as [out|err]; cbv zeta; cbn [app].
  - assert (Hend : negb (storage.ListObjectsPaginatedOutput.IsTruncated out)
                   || String.eqb (storage.ListObjectsPaginatedOutput.Cursor out) "" = true).
    { destruct Hlast as [-> | ->]; [reflexivity|apply orb_true_r]. }
    rewrite Hend.
    destruct (_ >=? maxListObjects); cbn [run]; rewrite app_nil_r; reflexivity.
  - cbn [run]. rewrite app_nil_r. reflexivity.
Qed.

Lemma ListAllObjects_single_page_example :
  value (run (small_remote false)
             (ListAllObjects sample_time_Parse 1 sample_client "" []) tt)
  = Some (Ok [ {| storage.FileInfo.Key := "a.txt";
                  storage.FileInfo.LastModified := time.zero;
                  storage.FileInfo.ETag := ""; storage.FileInfo.Size := 10;
                  storage.FileInfo.URL := ""; storage.FileInfo.Tagging := None |};
               {| storage.FileInfo.Key := "b.txt";
                  storage.FileInfo.LastModified := time.zero;
                  storage.FileInfo.ETag := ""; storage.FileInfo.Size := 0;
                  storage.FileInfo.URL := ""; storage.FileInfo.Tagging := None |} ]).
Proof.
  set (page := run (small_remote false)
                   (ListObjectsPaginated sample_time_Parse sample_client
                      (Some {| storage.ListObjectsPaginatedInput.Prefix := "";
                               storage.ListObjectsPaginatedInput.PageSize := 100;
                               storage.ListObjectsPaginatedInput.Cursor := "" |}) []) tt).
  assert (Hpage : page
                  = (Ok {| storage.ListObjectsPaginatedOutput.Files := sample_files;
                           storage.ListObjectsPaginatedOutput.Cursor := "";
                           storage.ListObjectsPaginatedOutput.IsTruncated := false |},
                     tt, trace page)) by (vm_compute; reflexivity).
  rewrite (ListAllObjects_single_page sample_time_Parse (small_remote false) sample_client
             "" [] 0 tt tt _ _ Hpage); [reflexivity|].
  left. reflexivity.
Defined.
